(** * TikTokApi.api.search: the paginated search driver

    A shallow embedding of [src/TikTokApi/api/search.py]: the async
    generator [Search.search_type] and its three facades [users],
    [general] and [keyword_suggestion].

    The generator is embedded as a function from a transport (the
    collaborator [Search.parent.make_request]) to the trace of
    observable events the generator produces, the way it ends, and the
    final state of the transport.  The [while] loop of the source need
    not terminate (a transport may answer empty pages with a truthy
    [has_more] forever), so the loop takes a fuel that bounds the number
    of pages fetched. *)

From Stdlib Require Import ZArith List String Ascii Bool Lia.
Import ListNotations.
Set Warnings "-register-all".
Open Scope string_scope.
Open Scope list_scope.
Open Scope Z_scope.

(** ** Python values as the transport decodes them from JSON

    A dict is an association list in insertion order; [dict_get] reads
    the first binding of a key.  Numbers are integers: a JSON float is
    neither iterable nor a mapping, so it would behave like [PInt]
    everywhere this module looks at a value. *)

Inductive pyval : Type :=
| PNone : pyval
| PBool (b : bool) : pyval
| PInt (z : Z) : pyval
| PStr (s : string) : pyval
| PList (l : list pyval) : pyval
| PDict (d : list (string * pyval)) : pyval.

Definition pydict : Type := list (string * pyval).

Fixpoint dict_lookup (d : pydict) (key : string) : option pyval :=
  match d with
  | [] => None
  | (k, v) :: d' => if String.eqb k key then Some v else dict_lookup d' key
  end.

(** [d.get(key, default)] on a dict. *)
Definition dict_get (d : pydict) (key : string) (default : pyval) : pyval :=
  match dict_lookup d key with
  | Some v => v
  | None => default
  end.

(** Python truthiness, as [not x] uses it. *)
Definition truthy (v : pyval) : bool :=
  match v with
  | PNone => false
  | PBool b => b
  | PInt z => negb (z =? 0)
  | PStr s => negb (String.eqb s "")
  | PList l => match l with [] => false | _ => true end
  | PDict d => match d with [] => false | _ => true end
  end.

(** ** Exceptions, result entities, requests *)

Inductive exn : Type :=
| InvalidResponseException (resp : pyval) (msg : string)
| AttributeError
| TypeError
| TransportError (what : string).

(** The entities built by [Search.parent.user], [Search.parent.video]
    and [Search.parent.keyword_suggestion], recorded with the arguments
    the source passes to each constructor. *)
Inductive item : Type :=
| User (sec_uid user_id username : pyval)
| Video
| KeywordSuggestion (keyword : pyval).

Record request : Type := mkRequest {
  url : string;
  params : pydict;
  headers : pyval;
  session_index : pyval
}.

(** What one awaited [make_request] gives back. *)
Inductive outcome : Type :=
| Ret (resp : pyval)
| Throw (e : exn).

(** ** Observable events of a session *)

Inductive event : Type :=
| EvCall (r : request) (o : outcome)
| EvPrint (resp : pyval)
| EvYield (i : item)
| EvWarn (msg : string).

Inductive ending : Type :=
| Returned
| Raised (e : exn)
| OutOfFuel.

Definition trace : Type := list event.

(** ** The generator monad: a trace and either an exception or a value *)

Definition Gen (A : Type) : Type := (trace * (exn + A))%type.

Definition ret {A} (a : A) : Gen A := ([], inr a).

Definition raise {A} (e : exn) : Gen A := ([], inl e).

Definition emit (ev : event) : Gen unit := ([ev], inr tt).

Definition yield (i : item) : Gen unit := emit (EvYield i).

Definition bind {A B} (m : Gen A) (f : A -> Gen B) : Gen B :=
  match m with
  | (tr, inl e) => (tr, inl e)
  | (tr, inr a) => let (tr', r) := f a in (tr ++ tr', r)
  end.

Definition lift {A} (r : exn + A) : Gen A := ([], r).

Notation "x <- m ;; k" := (bind m (fun x => k))
  (at level 61, m at next level, right associativity).
Notation "m ;;; k" := (bind m (fun _ => k))
  (at level 61, right associativity).

(** ** Attribute access and iteration on Python values *)

(** [v.get(key, default)]: only a dict has [get]. *)
Definition py_get (v : pyval) (key : string) (default : pyval) : exn + pyval :=
  match v with
  | PDict d => inr (dict_get d key default)
  | _ => inl AttributeError
  end.

Fixpoint chars (s : string) : list pyval :=
  match s with
  | EmptyString => []
  | String c s' => PStr (String c EmptyString) :: chars s'
  end.

(** [for x in v]: a list gives its elements, a dict its keys, a str its
    characters; the other values are not iterable. *)
Definition py_iter (v : pyval) : exn + list pyval :=
  match v with
  | PList l => inr l
  | PDict d => inr (map (fun kv => PStr (fst kv)) d)
  | PStr s => inr (chars s)
  | _ => inl TypeError
  end.

(** A [for] loop whose body threads the counter [found]. *)
Fixpoint for_each (xs : list pyval) (body : pyval -> Z -> Gen Z) (found : Z)
  : Gen Z :=
  match xs with
  | [] => ret found
  | x :: xs' => found' <- body x found ;; for_each xs' body found'
  end.

(** ** The bodies of the three decoding loops *)

Definition user_body (user : pyval) (found : Z) : Gen Z :=
  ui1 <- lift (py_get user "user_info" PNone) ;;
  sec_uid <- lift (py_get ui1 "sec_uid" PNone) ;;
  ui2 <- lift (py_get user "user_info" PNone) ;;
  uid <- lift (py_get ui2 "user_id" PNone) ;;
  ui3 <- lift (py_get user "user_info" PNone) ;;
  username <- lift (py_get ui3 "unique_id" PNone) ;;
  yield (User sec_uid uid username) ;;;
  ret (found + 1).

Definition video_body (video : pyval) (found : Z) : Gen Z :=
  yield Video ;;;
  ret (found + 1).

Definition keyword_body (keyword : pyval) (found : Z) : Gen Z :=
  yield (KeywordSuggestion keyword) ;;;
  ret (found + 1).

(** [if obj_type == kind: for x in resp.get(field, []): body]. *)
Definition decode_kind (obj_type kind field : string)
    (body : pyval -> Z -> Gen Z) (resp : pyval) (found : Z) : Gen Z :=
  if String.eqb obj_type kind then
    l <- lift (py_get resp field (PList [])) ;;
    xs <- lift (py_iter l) ;;
    for_each xs body found
  else ret found.

(** The three [if obj_type == ...] blocks, in the order of the source. *)
Definition decode_page (obj_type : string) (resp : pyval) (found : Z) : Gen Z :=
  found1 <- decode_kind obj_type "user/full" "user_list" user_body resp found ;;
  found2 <- decode_kind obj_type "general/full" "video_list" video_body resp found1 ;;
  decode_kind obj_type "general/preview" "suggestion_list" keyword_body resp found2.

(** The end of the loop body: [None] stands for the [return], [Some c]
    for the assignment [cursor = resp.get("cursor")]. *)
Definition next_cursor (resp : pyval) : Gen (option pyval) :=
  has_more <- lift (py_get resp "has_more" (PBool false)) ;;
  if truthy has_more then
    c <- lift (py_get resp "cursor" PNone) ;;
    ret (Some c)
  else ret None.

Definition invalid_response_msg : string :=
  "TikTok returned an invalid response.".

(** Everything the loop body does with a response once it has it. *)
Definition page (obj_type : string) (resp : pyval) (found : Z)
  : Gen (Z * option pyval) :=
  emit (EvPrint resp) ;;;
  match resp with
  | PNone => raise (InvalidResponseException resp invalid_response_msg)
  | _ => ret tt
  end ;;;
  found' <- decode_page obj_type resp found ;;
  nxt <- next_cursor resp ;;
  ret (found', nxt).

(** ** The request builder *)

Definition dq : string := String (ascii_of_nat 34) EmptyString.

Definition quoted (s : string) : string := (dq ++ s ++ dq)%string.

(** The literal of the source, a serialized JSON object. *)
Definition web_search_code : string :=
  ("{" ++ quoted "tiktok" ++ ":{" ++ quoted "client_params_x" ++ ":{"
  ++ quoted "search_engine" ++ ":{"
  ++ quoted "ies_mt_user_live_video_card_use_libra" ++ ":1,"
  ++ quoted "mt_search_general_user_live_card" ++ ":1}},"
  ++ quoted "search_server" ++ ":{}}}")%string.

Definition build_params (search_term : string) (cursor : pyval) : pydict :=
  [ ("keyword", PStr search_term);
    ("cursor", cursor);
    ("from_page", PStr "search");
    ("web_search_code", PStr web_search_code) ].

Definition build_request (search_term obj_type : string) (kwargs : pydict)
    (cursor : pyval) : request :=
  {| url := ("https://www.tiktok.com/api/search/" ++ obj_type ++ "/")%string;
     params := build_params search_term cursor;
     headers := dict_get kwargs "headers" PNone;
     session_index := dict_get kwargs "session_index" PNone |}.

(** ** Projections of a trace *)

Fixpoint calls (tr : trace) : list (request * outcome) :=
  match tr with
  | [] => []
  | EvCall r o :: tr' => (r, o) :: calls tr'
  | _ :: tr' => calls tr'
  end.

Fixpoint yielded (tr : trace) : list item :=
  match tr with
  | [] => []
  | EvYield i :: tr' => i :: yielded tr'
  | _ :: tr' => yielded tr'
  end.

Fixpoint warnings (tr : trace) : list string :=
  match tr with
  | [] => []
  | EvWarn m :: tr' => m :: warnings tr'
  | _ :: tr' => warnings tr'
  end.

Definition is_call (ev : event) : bool :=
  match ev with EvCall _ _ => true | _ => false end.

(** Number of items yielded since the last transport call of the
    trace, counted from [acc]. *)
Fixpoint last_batch (tr : trace) (acc : Z) : Z :=
  match tr with
  | [] => acc
  | EvCall _ _ :: tr' => last_batch tr' 0
  | EvYield _ :: tr' => last_batch tr' (acc + 1)
  | _ :: tr' => last_batch tr' acc
  end.

Definition last_page_size (tr : trace) : Z := last_batch tr 0.

Definition count_yielded (tr : trace) : Z := Z.of_nat (List.length (yielded tr)).

(** Whether a response lets the session go on: [resp.get("has_more",
    False)] is truthy. *)
Definition has_more (resp : pyval) : bool :=
  match py_get resp "has_more" (PBool false) with
  | inr v => truthy v
  | inl _ => false
  end.

(** The list field each of the three kinds reads; any other [obj_type]
    matches none of the three [if]s and reads no list. *)
Definition list_field (obj_type : string) : option string :=
  if String.eqb obj_type "user/full" then Some "user_list"
  else if String.eqb obj_type "general/full" then Some "video_list"
  else if String.eqb obj_type "general/preview" then Some "suggestion_list"
  else None.

(** The mapping [d] has no list field for the kind [obj_type]. *)
Definition lacks_list (obj_type : string) (d : pydict) : Prop :=
  match list_field obj_type with
  | Some field => dict_lookup d field = None
  | None => True
  end.

(** Every response of the trace reports a truthy [has_more]. *)
Definition all_report_more (tr : trace) : Prop :=
  forall r resp, In (r, Ret resp) (calls tr) -> has_more resp = true.

Definition result : Type -> Type := fun St => (trace * ending * St)%type.

Definition trace_of {St} (r : result St) : trace := fst (fst r).
Definition ending_of {St} (r : result St) : ending := snd (fst r).
Definition final_of {St} (r : result St) : St := snd r.

(** ** The pagination driver *)

Section Driver.

(** The transport delegate: [Search.parent.make_request], with its
    own state threaded explicitly. *)
Variable St : Type.
Variable make_request : St -> request -> outcome * St.

Section Session.

Variable search_term : string.
Variable obj_type : string.
Variable count : Z.
Variable kwargs : pydict.

(** The [while found < count] loop; [fuel] bounds the pages. *)
Fixpoint search_type_loop (fuel : nat) (found : Z) (cursor : pyval)
    (st : St) {struct fuel} : result St :=
  if found <? count then
    match fuel with
    | O => ([], OutOfFuel, st)
    | S fuel' =>
        let req := build_request search_term obj_type kwargs cursor in
        match make_request st req with
        | (Throw e, st') => ([EvCall req (Throw e)], Raised e, st')
        | (Ret resp, st') =>
            match page obj_type resp found with
            | (tr, inl e) => (EvCall req (Ret resp) :: tr, Raised e, st')
            | (tr, inr (found', None)) =>
                (EvCall req (Ret resp) :: tr, Returned, st')
            | (tr, inr (found', Some cursor')) =>
                let '(tr2, e, st'') :=
                  search_type_loop fuel' found' cursor' st' in
                (EvCall req (Ret resp) :: tr ++ tr2, e, st'')
            end
        end
    end
  else ([], Returned, st).

End Session.

(** The facades pass their arguments on; a caller that leaves [count]
    and [cursor] out gets the defaults below.  The entity constructors
    and the logger belong to the parent client and are taken to return
    normally. *)
Definition search_type (search_term obj_type : string) (count : Z)
    (cursor : pyval) (kwargs : pydict) (fuel : nat) (st : St) : result St :=
  search_type_loop search_term obj_type count kwargs fuel 0 cursor st.

Definition users (search_term : string) (count : Z) (cursor : pyval)
    (kwargs : pydict) (fuel : nat) (st : St) : result St :=
  search_type search_term "user/full" count cursor kwargs fuel st.

Definition advisory_msg : string :=
  "TikTok only allows a maximum of 9 videos to be returned per search without login.".

Definition general (search_term : string) (count : Z) (cursor : pyval)
    (kwargs : pydict) (fuel : nat) (st : St) : result St :=
  let warn := if count >? 9 then [EvWarn advisory_msg] else [] in
  let '(tr, e, st') :=
    search_type search_term "general/full" count cursor kwargs fuel st in
  (warn ++ tr, e, st').

Definition keyword_suggestion (search_term : string) (count : Z)
    (cursor : pyval) (kwargs : pydict) (fuel : nat) (st : St) : result St :=
  search_type search_term "general/preview" count cursor kwargs fuel st.

Definition users_default_count : Z := 10.
Definition general_default_count : Z := 9.
Definition keyword_suggestion_default_count : Z := 8.
Definition default_cursor : pyval := PInt 0.

End Driver.

Arguments search_type_loop {St}.
Arguments search_type {St}.
Arguments users {St}.
Arguments general {St}.
Arguments keyword_suggestion {St}.

(** ** A scripted transport, for running sessions on concrete pages *)

Definition scripted (st : list outcome) (r : request) : outcome * list outcome :=
  match st with
  | [] => (Throw (TransportError "script exhausted"), [])
  | o :: st' => (o, st')
  end.

Definition user_record (sec_uid user_id unique_id : string) : pyval :=
  PDict [("user_info",
          PDict [("sec_uid", PStr sec_uid);
                 ("user_id", PStr user_id);
                 ("unique_id", PStr unique_id)])].

Definition user_page (us : list pyval) (more : bool) (cursor : Z) : pyval :=
  PDict [("user_list", PList us); ("has_more", PBool more);
         ("cursor", PInt cursor)].

(** ** Shapes of a page and of a turn of the loop *)

(** A computation that only yields, and adds one to the counter for
    each item it yields. *)
Definition counting (found : Z) (m : Gen Z) : Prop :=
  exists items,
    fst m = map EvYield items
    /\ forall found', snd m = inr found' ->
                      found' = found + Z.of_nat (List.length items).

(** What a page does: it prints the response, yields some items, and
    either raises, or hands back the new counter together with the
    decision of the loop's last two statements. *)
Inductive page_shape (resp : pyval) (found : Z) : Gen (Z * option pyval) -> Prop :=
| page_raises (items : list item) (e : exn) :
    page_shape resp found (EvPrint resp :: map EvYield items, inl e)
| page_returns (d : pydict) (items : list item) :
    resp = PDict d -> has_more resp = false ->
    page_shape resp found
      (EvPrint resp :: map EvYield items,
       inr (found + Z.of_nat (List.length items), None))
| page_continues (d : pydict) (items : list item) :
    resp = PDict d -> has_more resp = true ->
    page_shape resp found
      (EvPrint resp :: map EvYield items,
       inr (found + Z.of_nat (List.length items),
            Some (dict_get d "cursor" PNone))).

Section Turn.

Variable St : Type.
Variable make_request : St -> request -> outcome * St.
Variables search_term obj_type : string.
Variable count : Z.
Variable kwargs : pydict.

(** One turn of the loop, entered with [found < count]. *)
Inductive turn (fuel : nat) (found : Z) (cursor : pyval) (st : St)
  : result St -> Prop :=
| turn_throw (e : exn) (st' : St) :
    make_request st (build_request search_term obj_type kwargs cursor)
    = (Throw e, st') ->
    turn fuel found cursor st
      ([EvCall (build_request search_term obj_type kwargs cursor) (Throw e)],
       Raised e, st')
| turn_raise (resp : pyval) (st' : St) (items : list item) (e : exn) :
    make_request st (build_request search_term obj_type kwargs cursor)
    = (Ret resp, st') ->
    page obj_type resp found = (EvPrint resp :: map EvYield items, inl e) ->
    turn fuel found cursor st
      (EvCall (build_request search_term obj_type kwargs cursor) (Ret resp)
         :: EvPrint resp :: map EvYield items,
       Raised e, st')
| turn_return (d : pydict) (st' : St) (items : list item) :
    make_request st (build_request search_term obj_type kwargs cursor)
    = (Ret (PDict d), st') ->
    page obj_type (PDict d) found
    = (EvPrint (PDict d) :: map EvYield items,
       inr (found + Z.of_nat (List.length items), None)) ->
    has_more (PDict d) = false ->
    turn fuel found cursor st
      (EvCall (build_request search_term obj_type kwargs cursor) (Ret (PDict d))
         :: EvPrint (PDict d) :: map EvYield items,
       Returned, st')
| turn_next (d : pydict) (st' : St) (items : list item) :
    make_request st (build_request search_term obj_type kwargs cursor)
    = (Ret (PDict d), st') ->
    page obj_type (PDict d) found
    = (EvPrint (PDict d) :: map EvYield items,
       inr (found + Z.of_nat (List.length items),
            Some (dict_get d "cursor" PNone))) ->
    has_more (PDict d) = true ->
    let next :=
      search_type_loop make_request search_term obj_type count kwargs fuel
        (found + Z.of_nat (List.length items))
        (dict_get d "cursor" PNone) st' in
    turn fuel found cursor st
      (EvCall (build_request search_term obj_type kwargs cursor) (Ret (PDict d))
         :: EvPrint (PDict d) :: map EvYield items ++ trace_of next,
       ending_of next, final_of next).

End Turn.

Arguments turn {St}.

(** A page that decodes, holds at least one item and reports a truthy
    [has_more], whatever the counter is. *)
Definition productive (obj_type : string) (resp : pyval) : Prop :=
  forall found, exists tr found' c,
    page obj_type resp found = (tr, inr (found', Some c)) /\ found < found'.

(** The responses a trace prints, and the responses its calls
    returned, in order. *)
Fixpoint printed (tr : trace) : list pyval :=
  match tr with
  | [] => []
  | EvPrint resp :: tr' => resp :: printed tr'
  | _ :: tr' => printed tr'
  end.

Fixpoint responses (tr : trace) : list pyval :=
  match tr with
  | [] => []
  | EvCall _ (Ret resp) :: tr' => resp :: responses tr'
  | _ :: tr' => responses tr'
  end.

(** The kind of session that builds each entity. *)
Definition item_kind (i : item) : string :=
  match i with
  | User _ _ _ => "user/full"
  | Video => "general/full"
  | KeywordSuggestion _ => "general/preview"
  end.

(** A computation that yields entities of the kind [kind] only. *)
Definition yields_kind (kind : string) {A} (m : Gen A) : Prop :=
  forall i, In (EvYield i) (fst m) -> item_kind i = kind.

(** A computation that raises [AttributeError] or [TypeError] when it
    raises. *)
Definition raises_lookup_errors {A} (m : Gen A) : Prop :=
  forall e, snd m = inl e -> e = AttributeError \/ e = TypeError.

(** The exceptions a session can end with: the transport's own, the
    one for a [None] response, and the two lookup errors. *)
Definition driver_exception (tr : trace) (e : exn) : Prop :=
  (exists r, In (EvCall r (Throw e)) tr)
  \/ (e = InvalidResponseException PNone invalid_response_msg
      /\ exists r, In (EvCall r (Ret PNone)) tr)
  \/ e = AttributeError
  \/ e = TypeError.

(** ** Well-formed and ill-formed user records *)

(** The entity [user_body] builds from the mapping under [user_info]. *)
Definition user_of (ui : pydict) : item :=
  User (dict_get ui "sec_uid" PNone) (dict_get ui "user_id" PNone)
       (dict_get ui "unique_id" PNone).

(** The record is a mapping whose [user_info] is the mapping [ui]. *)
Definition good_user_record (rec : pyval) (ui : pydict) : Prop :=
  exists u, rec = PDict u /\ dict_lookup u "user_info" = Some (PDict ui).

(** Anything else: not a mapping, without [user_info], or with a
    [user_info] that is not a mapping. *)
Definition bad_user_record (rec : pyval) : Prop :=
  match rec with
  | PDict u =>
      match dict_lookup u "user_info" with
      | Some (PDict _) => False
      | _ => True
      end
  | _ => True
  end.

(** A page that decodes without an item and reports a truthy
    [has_more], whatever the counter is. *)
Definition barren (obj_type : string) (resp : pyval) : Prop :=
  forall found, exists c,
    page obj_type resp found = ([EvPrint resp], inr (found, Some c)).

(** The values [for x in v] cannot iterate. *)
Definition not_iterable (v : pyval) : Prop :=
  match v with
  | PNone | PBool _ | PInt _ => True
  | _ => False
  end.

(** A transport that answers every request with the same response. *)
Definition always (resp : pyval) (st : unit) (r : request) : outcome * unit :=
  (Ret resp, st).

(** ** Concrete sessions *)

Definition two_users : list pyval :=
  [user_record "sec-1" "1" "alice"; user_record "sec-2" "2" "bob"].

Definition alice : item := User (PStr "sec-1") (PStr "1") (PStr "alice").
Definition bob : item := User (PStr "sec-2") (PStr "2") (PStr "bob").

Definition users_request (cursor : pyval) : request :=
  build_request "david teather" "user/full" [] cursor.

Definition page_a : pyval := user_page two_users true 10.
Definition page_b : pyval := user_page two_users false 20.


Definition page_no_list : pyval :=
  PDict [("has_more", PBool true); ("cursor", PInt 5)].

Definition page_bad_record : pyval :=
  user_page [user_record "sec-1" "1" "alice"; PDict [("unrelated", PInt 1)]]
    false 0.

Definition video_page : pyval :=
  PDict [("video_list", PList [PDict []; PDict []]); ("has_more", PBool false)].

Definition users_session (count : Z) (script : list outcome)
  : result (list outcome) :=
  users scripted "david teather" count (PInt 0) [] 5 script.

(** Three pages on offer, two fetched: the threshold 3 is passed on
    the second. *)
Definition session_unbounded : result (list outcome) :=
  users_session 3 [Ret page_a; Ret page_a; Ret page_a].

Definition session_null : result (list outcome) :=
  users_session 10 [Ret page_a; Ret PNone].

Definition session_one_page : result (list outcome) :=
  users_session 10 [Ret page_b; Ret page_b].


Definition session_empty_payload : result (list outcome) :=
  users_session 10 [Ret (PDict [])].

Definition session_no_list : result (list outcome) :=
  users_session 10 [Ret page_no_list; Ret page_b].

Definition session_bad_record : result (list outcome) :=
  users_session 10 [Ret page_bad_record].

Definition session_general : result (list outcome) :=
  general scripted "david teather" 20 (PInt 0) [] 5 [Ret video_page].

Definition session_timeout : result (list outcome) :=
  users_session 10 [Ret page_a; Throw (TransportError "timeout")].

Definition kwargs_known : pydict :=
  [("headers", PDict [("User-Agent", PStr "tests")]);
   ("session_index", PInt 2)].

Definition kwargs_more : pydict :=
  ("proxy", PStr "10.0.0.1") :: kwargs_known.

Definition session_with_options (kwargs : pydict) : result (list outcome) :=
  users scripted "david teather" 10 (PInt 0) kwargs 5 [Ret page_b].

Definition session_list_response : result (list outcome) :=
  users_session 10 [Ret (PList [])].

Definition page_null_list : pyval :=
  PDict [("user_list", PNone); ("has_more", PBool true)].

Definition session_null_list : result (list outcome) :=
  users_session 10 [Ret page_null_list; Ret page_b].

Definition session_unknown_kind : result (list outcome) :=
  search_type scripted "david teather" "video" 5 (PInt 0) [] 1 [Ret page_b].

Definition ui_alice : pydict :=
  [("sec_uid", PStr "sec-1"); ("user_id", PStr "1");
   ("unique_id", PStr "alice")].

Definition ui_bob : pydict :=
  [("sec_uid", PStr "sec-2"); ("user_id", PStr "2");
   ("unique_id", PStr "bob")].

Definition keyword_page : pyval :=
  PDict [("suggestion_list", PList [PStr "cats"; PInt 7]);
         ("has_more", PBool false)].

Definition session_keywords : result (list outcome) :=
  keyword_suggestion scripted "david teather" 8 (PInt 0) [] 5
    [Ret keyword_page].

Definition general_request (cursor : pyval) : request :=
  build_request "david teather" "general/full" [] cursor.

Definition keyword_request (cursor : pyval) : request :=
  build_request "david teather" "general/preview" [] cursor.



(** * Properties *)

Example web_search_code_length : String.length web_search_code = 148%nat.
Proof. reflexivity. Qed.

(** ** Traces *)

Lemma calls_app (a b : trace) : calls (a ++ b) = calls a ++ calls b.
Proof.
  induction a as [|[r o| | |] a IH]; simpl; try rewrite IH; reflexivity.
Qed.

Lemma yielded_app (a b : trace) :
  yielded (a ++ b) = yielded a ++ yielded b.
Proof.
  induction a as [|[| |i|] a IH]; simpl; try rewrite IH; reflexivity.
Qed.

Lemma calls_yields (items : list item) : calls (map EvYield items) = [].
Proof. induction items; simpl; auto. Qed.

Lemma yielded_yields (items : list item) : yielded (map EvYield items) = items.
Proof. induction items; simpl; congruence. Qed.

Lemma count_yielded_app (a b : trace) :
  count_yielded (a ++ b) = count_yielded a + count_yielded b.
Proof.
  unfold count_yielded. rewrite yielded_app, length_app. lia.
Qed.

Lemma last_batch_yields (items : list item) (acc : Z) :
  last_batch (map EvYield items) acc = acc + Z.of_nat (List.length items).
Proof.
  revert acc. induction items as [|i items IH]; intros acc.
  - simpl. lia.
  - cbn [map last_batch List.length]. rewrite IH. lia.
Qed.

Lemma last_batch_yields_app (items : list item) (tr : trace) (acc : Z) :
  last_batch (map EvYield items ++ tr) acc
  = last_batch tr (acc + Z.of_nat (List.length items)).
Proof.
  revert acc. induction items as [|i items IH]; intros acc.
  - simpl. f_equal. lia.
  - cbn [map app last_batch List.length]. rewrite IH. f_equal. lia.
Qed.

(** A call inside [ys ++ tl], where [ys] holds no call, lies in [tl]. *)
Lemma call_after_yields (items : list item) (tl pre post : trace)
    (r : request) (o : outcome) :
  map EvYield items ++ tl = pre ++ EvCall r o :: post ->
  exists pre', tl = pre' ++ EvCall r o :: post
               /\ pre = map EvYield items ++ pre'.
Proof.
  revert pre. induction items as [|i items IH]; intros pre H.
  - exists pre. auto.
  - destruct pre as [|ev pre]; simpl in H; [discriminate|].
    injection H as <- H. destruct (IH _ H) as (pre' & -> & ->).
    exists pre'. auto.
Qed.

(** ** The generator monad *)

Lemma bind_inv {A B} (m : Gen A) (f : A -> Gen B) (tr : trace) (b : B) :
  bind m f = (tr, inr b) ->
  exists tr1 a tr2,
    m = (tr1, inr a) /\ f a = (tr2, inr b) /\ tr = tr1 ++ tr2.
Proof.
  destruct m as [tr1 [e|a]]; simpl; [discriminate|].
  destruct (f a) as [tr2 r] eqn:E. intros H. injection H as <- ->.
  exists tr1, a, tr2. auto.
Qed.

Lemma counting_ret (found : Z) : counting found (ret found).
Proof. exists []. simpl. split; [auto|]. intros ? [= <-]. lia. Qed.

Lemma counting_bind (found : Z) (m : Gen Z) (k : Z -> Gen Z) :
  counting found m -> (forall f1, counting f1 (k f1)) ->
  counting found (bind m k).
Proof.
  intros (xs & Hx & Hf) Hk. destruct m as [tr [e|f1]]; simpl in *.
  - exists xs. split; [auto | discriminate].
  - destruct (Hk f1) as (ys & Hy & Hg). destruct (k f1) as [tr' r]. simpl in *.
    exists (xs ++ ys). subst. rewrite map_app. split; [auto|].
    intros f2 Hr. rewrite (Hg _ Hr), (Hf _ eq_refl), length_app. lia.
Qed.

Lemma counting_lift {A} (found : Z) (r : exn + A) (k : A -> Gen Z) :
  (forall a, counting found (k a)) -> counting found (bind (lift r) k).
Proof.
  intros Hk. destruct r as [e|a]; simpl.
  - exists []. split; [auto | discriminate].
  - specialize (Hk a). destruct (k a). exact Hk.
Qed.

Lemma counting_yield (found : Z) (i : item) :
  counting found (yield i ;;; ret (found + 1)).
Proof.
  exists [i]. simpl. split; [auto|]. intros ? [= <-]. lia.
Qed.

Lemma counting_user_body (user : pyval) (found : Z) :
  counting found (user_body user found).
Proof.
  unfold user_body. repeat (apply counting_lift; intros ?).
  apply counting_yield.
Qed.

Lemma counting_for_each (body : pyval -> Z -> Gen Z) (xs : list pyval) :
  (forall x f, counting f (body x f)) ->
  forall found, counting found (for_each xs body found).
Proof.
  intros Hb. induction xs as [|x xs IH]; intros found; simpl.
  - apply counting_ret.
  - apply counting_bind; auto.
Qed.

Lemma counting_decode_kind (obj_type kind field : string)
    (body : pyval -> Z -> Gen Z) (resp : pyval) (found : Z) :
  (forall x f, counting f (body x f)) ->
  counting found (decode_kind obj_type kind field body resp found).
Proof.
  intros Hb. unfold decode_kind. destruct (String.eqb obj_type kind).
  - repeat (apply counting_lift; intros ?). apply counting_for_each, Hb.
  - apply counting_ret.
Qed.

Lemma counting_decode_page (obj_type : string) (resp : pyval) (found : Z) :
  counting found (decode_page obj_type resp found).
Proof.
  unfold decode_page.
  apply counting_bind; [|intros f1; apply counting_bind; [|intros f2]];
    apply counting_decode_kind; intros x f;
    solve [apply counting_user_body | apply counting_yield].
Qed.

(** ** One page *)

Lemma pyval_none_dec (v : pyval) : {v = PNone} + {v <> PNone}.
Proof. destruct v; (left; reflexivity) || (right; discriminate). Qed.

Lemma next_cursor_dict (d : pydict) :
  next_cursor (PDict d)
  = ([], inr (if has_more (PDict d)
              then Some (dict_get d "cursor" PNone) else None)).
Proof.
  unfold next_cursor, has_more. simpl.
  destruct (truthy (dict_get d "has_more" (PBool false))); reflexivity.
Qed.

Lemma next_cursor_not_dict (resp : pyval) :
  (forall d, resp <> PDict d) -> next_cursor resp = ([], inl AttributeError).
Proof.
  intros H. destruct resp; try reflexivity. now destruct (H d).
Qed.

Lemma page_none (obj_type : string) (found : Z) :
  page obj_type PNone found
  = ([EvPrint PNone],
     inl (InvalidResponseException PNone invalid_response_msg)).
Proof. reflexivity. Qed.

Lemma page_not_none (obj_type : string) (resp : pyval) (found : Z) :
  resp <> PNone ->
  page obj_type resp found
  = (let (tr, r) :=
       (found' <- decode_page obj_type resp found ;;
        nxt <- next_cursor resp ;;
        ret (found', nxt)) in
     (EvPrint resp :: tr, r)).
Proof.
  intros H. unfold page.
  destruct resp; try congruence; cbn [emit bind ret];
    match goal with |- context [bind ?m ?k] => destruct (bind m k) end;
    reflexivity.
Qed.

Lemma page_spec (obj_type : string) (resp : pyval) (found : Z) :
  page_shape resp found (page obj_type resp found).
Proof.
  destruct (pyval_none_dec resp) as [->|Hn].
  - rewrite page_none. apply (page_raises PNone found []).
  - rewrite (page_not_none _ _ _ Hn).
    destruct (counting_decode_page obj_type resp found) as (items & Htr & Hf).
    destruct (decode_page obj_type resp found) as [tr [e|f1]]; simpl in Htr; subst tr.
    + simpl. apply page_raises.
    + rewrite (Hf f1 eq_refl). cbn [bind].
      destruct resp as [| | | | |d]; try congruence;
        try (simpl; rewrite app_nil_r; apply page_raises).
      rewrite next_cursor_dict. cbn [bind ret]. rewrite !app_nil_r.
      destruct (has_more (PDict d)) eqn:Hm.
      * now apply page_continues.
      * now apply (page_returns _ _ d).
Qed.

(** ** The loop *)

Section Loop.

Context {St : Type}.
Variable make_request : St -> request -> outcome * St.
Variables search_term obj_type : string.
Variable count : Z.
Variable kwargs : pydict.

Local Abbreviation loop :=
  (search_type_loop make_request search_term obj_type count kwargs).
Local Abbreviation req_at := (build_request search_term obj_type kwargs).
Local Abbreviation turn_at :=
  (turn make_request search_term obj_type count kwargs).

Lemma loop_done (fuel : nat) (found : Z) (cursor : pyval) (st : St) :
  count <= found -> loop fuel found cursor st = ([], Returned, st).
Proof.
  intros H. destruct fuel; simpl;
    destruct (Z.ltb_spec found count); try lia; reflexivity.
Qed.

Lemma loop_no_fuel (found : Z) (cursor : pyval) (st : St) :
  found < count -> loop O found cursor st = ([], OutOfFuel, st).
Proof.
  intros H. simpl. destruct (Z.ltb_spec found count); try lia; reflexivity.
Qed.

Lemma loop_turn (fuel : nat) (found : Z) (cursor : pyval) (st : St) :
  found < count ->
  turn_at fuel found cursor st (loop (S fuel) found cursor st).
Proof.
  intros H. cbn [search_type_loop].
  destruct (Z.ltb_spec found count); [|lia].
  destruct (make_request st (req_at cursor)) as [[resp|e] st'] eqn:Hreq.
  - pose proof (page_spec obj_type resp found) as Hp.
    destruct (page obj_type resp found) as [tr r] eqn:Hpage.
    inversion Hp as [items e | d items Hd Hm | d items Hd Hm]; subst.
    + eapply turn_raise; eauto.
    + now apply turn_return.
    + pose proof (turn_next St make_request search_term obj_type count kwargs
                    fuel found cursor st d st' items Hreq Hpage Hm) as Ht.
      cbv zeta in Ht. unfold trace_of, ending_of, final_of in Ht.
      destruct (loop fuel _ _ st') as [[tr2 e2] st2]. exact Ht.
  - now apply turn_throw.
Qed.

(** Every transport call of a run is the first call of a run of the
    loop itself: the rest of the trace, the ending and the final state
    are those of the loop started at the state it had on that turn. *)
Lemma loop_suffix (fuel : nat) :
  forall (found : Z) (cursor : pyval) (st : St)
         (pre post : trace) (r : request) (o : outcome),
    trace_of (loop fuel found cursor st) = pre ++ EvCall r o :: post ->
    exists fuel' found' cursor' st',
      found' < count
      /\ r = req_at cursor'
      /\ loop (S fuel') found' cursor' st'
         = (EvCall r o :: post,
            ending_of (loop fuel found cursor st),
            final_of (loop fuel found cursor st)).
Proof.
  induction fuel as [|fuel IH]; intros found cursor st pre post r o H.
  - exfalso. destruct (Z_lt_le_dec found count) as [Hlt|Hge].
    + rewrite loop_no_fuel in H by assumption.
      now apply app_cons_not_nil in H.
    + rewrite loop_done in H by assumption.
      now apply app_cons_not_nil in H.
  - destruct (Z_lt_le_dec found count) as [Hlt|Hge].
    2:{ rewrite loop_done in H by assumption.
        now apply app_cons_not_nil in H. }
    pose proof (loop_turn fuel found cursor st Hlt) as Ht.
    remember (loop (S fuel) found cursor st) as res eqn:E.
    destruct pre as [|ev pre].
    { exists fuel, found, cursor, st. split; [assumption|].
      rewrite <- E.
      destruct Ht; cbn [trace_of fst app] in H; injection H as <- <- <-;
        (split; [reflexivity|]); reflexivity. }
    destruct Ht as [e st' Hreq | resp st' items e Hreq Hpage
                   | d st' items Hreq Hpage Hm | d st' items Hreq Hpage Hm next];
      cbn [trace_of ending_of final_of fst snd app] in H |- *;
      injection H as _ H.
    + now apply app_cons_not_nil in H.
    + destruct pre as [|ev' pre]; [discriminate|]. injection H as _ H.
      rewrite <- (app_nil_r (map EvYield items)) in H.
      apply call_after_yields in H. destruct H as (pre' & H & _).
      now apply app_cons_not_nil in H.
    + destruct pre as [|ev' pre]; [discriminate|]. injection H as _ H.
      rewrite <- (app_nil_r (map EvYield items)) in H.
      apply call_after_yields in H. destruct H as (pre' & H & _).
      now apply app_cons_not_nil in H.
    + destruct pre as [|ev' pre]; [discriminate|]. injection H as _ H.
      apply call_after_yields in H. destruct H as (pre' & H & _).
      exact (IH _ _ _ _ _ _ _ H).
Qed.

(** The turn that follows a call already known from the trace. *)
Lemma turn_of_call (fuel : nat) (found : Z) (cursor : pyval) (st : St)
    (r : request) (o : outcome) (post : trace) (e : ending) (stf : St) :
  found < count ->
  loop (S fuel) found cursor st = (EvCall r o :: post, e, stf) ->
  turn_at fuel found cursor st (EvCall r o :: post, e, stf).
Proof.
  intros Hlt H. rewrite <- H. now apply loop_turn.
Qed.

(** A session is a run of the loop from [found = 0]. *)
Lemma search_type_suffix (cursor : pyval) (fuel : nat) (st : St)
    (pre post : trace) (r : request) (o : outcome) :
  let run :=
    search_type make_request search_term obj_type count cursor kwargs fuel st in
  trace_of run = pre ++ EvCall r o :: post ->
  exists fuel' found' cursor' st',
    found' < count
    /\ r = req_at cursor'
    /\ turn_at fuel' found' cursor' st'
         (EvCall r o :: post, ending_of run, final_of run).
Proof.
  intros run H. unfold run, search_type in *.
  destruct (loop_suffix _ _ _ _ _ _ _ _ H)
    as (fuel' & found' & cursor' & st' & Hlt & Hr & Hrun).
  exists fuel', found', cursor', st'. repeat split; try assumption.
  now apply turn_of_call.
Qed.

(** The first call of a run of the loop carries the loop's cursor. *)
Lemma loop_first_call (fuel : nat) (found : Z) (cursor : pyval) (st : St)
    (r : request) (o : outcome) (rest : list (request * outcome)) :
  calls (trace_of (loop fuel found cursor st)) = (r, o) :: rest ->
  r = req_at cursor.
Proof.
  destruct (Z_lt_le_dec found count) as [Hlt|Hge].
  2:{ rewrite loop_done by assumption. discriminate. }
  destruct fuel as [|fuel].
  { rewrite loop_no_fuel by assumption. discriminate. }
  destruct (loop_turn fuel found cursor st Hlt);
    cbn [trace_of fst calls]; congruence.
Qed.

(** Consecutive calls of a run of the loop: the later one carries the
    cursor the earlier response gave. *)
Lemma loop_cursor_chain (fuel : nat) :
  forall (found : Z) (cursor : pyval) (st : St) (n : nat)
         (r1 r2 : request) (resp : pyval) (o2 : outcome),
    let cs := calls (trace_of (loop fuel found cursor st)) in
    nth_error cs n = Some (r1, Ret resp) ->
    nth_error cs (S n) = Some (r2, o2) ->
    exists c, py_get resp "cursor" PNone = inr c /\ r2 = req_at c.
Proof.
  induction fuel as [|fuel IH]; intros found cursor st n r1 r2 resp o2 cs.
  - subst cs. destruct (Z_lt_le_dec found count).
    + rewrite loop_no_fuel by assumption. now destruct n.
    + rewrite loop_done by assumption. now destruct n.
  - subst cs. destruct (Z_lt_le_dec found count) as [Hlt|Hge].
    2:{ rewrite loop_done by assumption. now destruct n. }
    destruct (loop_turn fuel found cursor st Hlt)
      as [e st' Hreq | resp' st' items e Hreq Hpage
         | d st' items Hreq Hpage Hm | d st' items Hreq Hpage Hm next];
      cbn [trace_of fst calls]; rewrite ?calls_app, ?calls_yields;
      cbn [app]; intros H1 H2.
    + now destruct n.
    + now destruct n.
    + now destruct n.
    + destruct n as [|n]; cbn [nth_error] in H1, H2.
      * injection H1 as _ <-. exists (dict_get d "cursor" PNone).
        split; [reflexivity|].
        destruct (calls (trace_of next)) as [|[r o] rest] eqn:Hc;
          [discriminate|].
        injection H2 as -> _. exact (loop_first_call _ _ _ _ _ _ _ Hc).
      * exact (IH _ _ _ _ _ _ _ _ H1 H2).
Qed.

Lemma warnings_yields (items : list item) : warnings (map EvYield items) = [].
Proof. induction items; simpl; auto. Qed.

Lemma warnings_app (a b : trace) : warnings (a ++ b) = warnings a ++ warnings b.
Proof.
  induction a as [|[| | |m] a IH]; simpl; try rewrite IH; reflexivity.
Qed.

(** The loop itself logs nothing. *)
Lemma loop_no_warnings (fuel : nat) :
  forall (found : Z) (cursor : pyval) (st : St),
    warnings (trace_of (loop fuel found cursor st)) = [].
Proof.
  induction fuel as [|fuel IH]; intros found cursor st;
    destruct (Z_lt_le_dec found count) as [Hlt|Hge];
    rewrite ?loop_done, ?loop_no_fuel by assumption; try reflexivity.
  destruct (loop_turn fuel found cursor st Hlt);
    cbn [trace_of fst warnings];
    rewrite ?warnings_app, ?warnings_yields; auto.
  apply IH.
Qed.

(** ** Sessions *)


(** C4. Whenever a transport call of a session hands back [None], the
    generator prints the response and raises [InvalidResponseException]:
    the trace ends there, with no item and no further call after that
    call. *)
Theorem null_response_is_invalid (cursor : pyval) (fuel : nat) (st : St)
    (pre post : trace) (r : request) :
  let run :=
    search_type make_request search_term obj_type count cursor kwargs fuel st in
  trace_of run = pre ++ EvCall r (Ret PNone) :: post ->
  post = [EvPrint PNone]
  /\ ending_of run
     = Raised (InvalidResponseException PNone invalid_response_msg)
  /\ yielded post = []
  /\ calls post = [].
Proof.
  intros run H.
  destruct (search_type_suffix _ _ _ _ _ _ _ H)
    as (fuel' & found' & cursor' & st' & Hlt & Hr & Ht).
  inversion Ht as [ | resp st2 items e Hreq Hpage | | ]; subst.
  rewrite page_none in Hpage. injection Hpage as Hitems <-.
  rewrite <- Hitems. auto.
Qed.

(** C5. Once a page of a session reports a [has_more] that is false or
    absent, the session is over: the rest of the trace holds no
    transport call and the generator has returned or raised.  When that
    page is the first one, the session has made exactly one call,
    whatever [count] is. *)
Theorem no_more_ends_session (cursor : pyval) (fuel : nat) (st : St)
    (pre post : trace) (r : request) (resp : pyval) :
  let run :=
    search_type make_request search_term obj_type count cursor kwargs fuel st in
  trace_of run = pre ++ EvCall r (Ret resp) :: post ->
  has_more resp = false ->
  calls post = []
  /\ (ending_of run = Returned \/ exists e, ending_of run = Raised e)
  /\ (pre = [] -> calls (trace_of run) = [(r, Ret resp)]).
Proof.
  intros run H Hm.
  destruct (search_type_suffix _ _ _ _ _ _ _ H)
    as (fuel' & found' & cursor' & st' & Hlt & Hr & Ht).
  assert (Hpost : calls post = []
                  /\ (ending_of run = Returned
                      \/ exists e, ending_of run = Raised e)).
  { inversion Ht as [ | resp' st2 items e Hreq Hpage
                    | d st2 items Hreq Hpage Hm' | d st2 items Hreq Hpage Hm' next ];
      subst; cbn [calls]; rewrite ?calls_yields; eauto.
    congruence. }
  destruct Hpost as [Hc He]. repeat split; try assumption.
  intros ->. rewrite H. cbn [app calls]. now rewrite Hc.
Qed.

(** C2. In every session, the request of page N+1 is built from the
    value [resp.get("cursor")] of page N's response: its [cursor]
    parameter is that value, whatever it is, and nothing is computed
    from the previous cursor or from the size of the page. *)
Theorem next_request_uses_response_cursor (cursor : pyval) (fuel : nat)
    (st : St) (n : nat) (r1 r2 : request) (resp : pyval) (o2 : outcome) :
  let run :=
    search_type make_request search_term obj_type count cursor kwargs fuel st in
  nth_error (calls (trace_of run)) n = Some (r1, Ret resp) ->
  nth_error (calls (trace_of run)) (S n) = Some (r2, o2) ->
  exists c,
    py_get resp "cursor" PNone = inr c
    /\ dict_lookup (params r2) "cursor" = Some c
    /\ r2 = build_request search_term obj_type kwargs c.
Proof.
  intros run H1 H2.
  destruct (loop_cursor_chain _ _ _ _ _ _ _ _ _ H1 H2) as (c & Hc & ->).
  exists c. auto.
Qed.

(** C7. Every request of every session, for any search kind, carries
    exactly the four parameters [keyword] (the search term), [cursor]
    (the loop's cursor, which for the first request is the caller's),
    [from_page] (the literal [search]) and [web_search_code] (one
    literal, the same for every kind and every request). *)
Theorem request_parameters (cursor : pyval) (fuel : nat) (st : St)
    (r : request) (o : outcome) :
  let run :=
    search_type make_request search_term obj_type count cursor kwargs fuel st in
  In (EvCall r o) (trace_of run) ->
  exists c,
    params r = [ ("keyword", PStr search_term);
                 ("cursor", c);
                 ("from_page", PStr "search");
                 ("web_search_code", PStr web_search_code) ]
    /\ (forall post, trace_of run = EvCall r o :: post -> c = cursor).
Proof.
  intros run Hin.
  destruct (in_split _ _ Hin) as (pre & post & H).
  destruct (search_type_suffix _ _ _ _ _ _ _ H)
    as (fuel' & found' & c & st' & _ & -> & _).
  exists c. split; [reflexivity|].
  intros post' H'.
  assert (Hc : calls (trace_of run)
               = (req_at c, o) :: calls post')
    by (rewrite H'; reflexivity).
  apply loop_first_call in Hc. now injection Hc.
Qed.


(** ** Counting the items of a session *)

Lemma count_yielded_yields (items : list item) :
  count_yielded (map EvYield items) = Z.of_nat (List.length items).
Proof. unfold count_yielded. now rewrite yielded_yields. Qed.

Lemma count_yielded_nonneg (tr : trace) : 0 <= count_yielded tr.
Proof. unfold count_yielded. lia. Qed.

(** The loop invariant behind the upper bound: entered with
    [found < count], the loop ends with a total that exceeds [count] by
    less than the number of items of its last page. *)
Lemma loop_upper_bound (fuel : nat) :
  forall (found : Z) (cursor : pyval) (st : St) (acc : Z),
    0 <= acc -> found < count ->
    let tr := trace_of (loop fuel found cursor st) in
    found + count_yielded tr <= count + (last_batch tr acc - 1).
Proof.
  induction fuel as [|fuel IH]; intros found cursor st acc Hacc Hlt tr;
    subst tr.
  - rewrite loop_no_fuel by assumption. cbn. lia.
  - destruct (loop_turn fuel found cursor st Hlt)
      as [e st' Hreq | resp' st' items e Hreq Hpage
         | d st' items Hreq Hpage Hm | d st' items Hreq Hpage Hm next];
      cbn [trace_of fst].
    + cbn. lia.
    + change (count_yielded (EvCall ?r ?o :: EvPrint ?p :: ?t))
        with (count_yielded t).
      cbn [last_batch]. rewrite count_yielded_yields, last_batch_yields. lia.
    + change (count_yielded (EvCall ?r ?o :: EvPrint ?p :: ?t))
        with (count_yielded t).
      cbn [last_batch]. rewrite count_yielded_yields, last_batch_yields. lia.
    + change (count_yielded (EvCall ?r ?o :: EvPrint ?p :: ?t))
        with (count_yielded t).
      cbn [last_batch].
      rewrite count_yielded_app, count_yielded_yields, last_batch_yields_app.
      destruct (Z_lt_le_dec (found + Z.of_nat (List.length items)) count)
        as [Hlt'|Hge'].
      * pose proof (IH (found + Z.of_nat (List.length items))
                      (dict_get d "cursor" PNone) st'
                      (0 + Z.of_nat (List.length items))
                      ltac:(lia) Hlt') as Hb.
        cbv zeta in Hb. fold next in Hb. lia.
      * subst next. rewrite loop_done by assumption. cbn. lia.
Qed.

(** The loop invariant behind the lower bound: the loop returns with
    fewer than [count] items only after a page whose [has_more] is not
    truthy. *)
Lemma loop_lower_bound (fuel : nat) :
  forall (found : Z) (cursor : pyval) (st : St),
    let run := loop fuel found cursor st in
    ending_of run = Returned ->
    all_report_more (trace_of run) ->
    count <= found + count_yielded (trace_of run).
Proof.
  induction fuel as [|fuel IH]; intros found cursor st run; subst run;
    destruct (Z_lt_le_dec found count) as [Hlt|Hge];
    try (intros _ _;
         match goal with
         | |- context [count_yielded ?t] =>
             pose proof (count_yielded_nonneg t)
         end; lia).
  - rewrite loop_no_fuel by assumption. discriminate.
  - destruct (loop_turn fuel found cursor st Hlt)
      as [e st' Hreq | resp' st' items e Hreq Hpage
         | d st' items Hreq Hpage Hm | d st' items Hreq Hpage Hm next];
      cbn [trace_of ending_of fst snd]; intros He Hall; try discriminate.
    + specialize (Hall (req_at cursor) (PDict d) (or_introl eq_refl)).
      congruence.
    + change (count_yielded (EvCall ?r ?o :: EvPrint ?p :: ?t))
        with (count_yielded t).
      rewrite count_yielded_app, count_yielded_yields.
      assert (Hall' : all_report_more (trace_of next)).
      { intros r resp Hin. apply (Hall r resp). cbn [calls].
        rewrite calls_app, calls_yields. right. exact Hin. }
      pose proof (IH _ _ _ He Hall') as Hb. fold next in Hb. lia.
Qed.

(** When the transport always answers with a productive page, the
    session returns once it has fetched at most [count] pages. *)
Lemma productive_session_returns :
  (forall st r, exists resp st',
      make_request st r = (Ret resp, st') /\ productive obj_type resp) ->
  forall (fuel : nat) (found : Z) (cursor : pyval) (st : St),
    (Z.to_nat (count - found) <= fuel)%nat ->
    ending_of (loop fuel found cursor st) = Returned.
Proof.
  intros Hprod. induction fuel as [|fuel IH]; intros found cursor st Hfuel;
    destruct (Z_lt_le_dec found count) as [Hlt|Hge];
    rewrite ?loop_done by assumption; try reflexivity; [lia|].
  destruct (Hprod st (req_at cursor)) as (resp & st1 & Hreq1 & Hp).
  destruct (Hp found) as (tr & found' & c & Hpage1 & Hgrow).
  destruct (loop_turn fuel found cursor st Hlt)
    as [e st' Hreq | resp' st' items e Hreq Hpage
       | d st' items Hreq Hpage Hm | d st' items Hreq Hpage Hm next];
    cbn [ending_of fst snd]; try congruence.
  subst next. apply IH.
  rewrite Hreq1 in Hreq. injection Hreq as -> <-.
  rewrite Hpage1 in Hpage. injection Hpage as _ Hf _. lia.
Qed.

(** The two bounds of a session, the lower one for a session that
    has returned after pages that all report a truthy [has_more]. *)
Lemma returned_session_count_bounds (cursor : pyval) (fuel : nat) (st : St) :
  let run :=
    search_type make_request search_term obj_type count cursor kwargs fuel st in
  0 < count ->
  count_yielded (trace_of run) <= count + (last_page_size (trace_of run) - 1)
  /\ (ending_of run = Returned ->
      all_report_more (trace_of run) ->
      count <= count_yielded (trace_of run)).
Proof.
  intros run Hpos. split.
  - exact (loop_upper_bound fuel 0 cursor st 0 (Z.le_refl 0) Hpos).
  - intros He Hall. exact (loop_lower_bound fuel 0 cursor st He Hall).
Qed.

(** ** Pages without the expected list *)

Lemma decode_kind_absent (kind field : string) (body : pyval -> Z -> Gen Z)
    (d : pydict) (found : Z) :
  dict_lookup d field = None ->
  decode_kind kind kind field body (PDict d) found = ([], inr found).
Proof.
  intros H. unfold decode_kind, dict_get. rewrite String.eqb_refl.
  cbn [py_get lift bind]. unfold dict_get. rewrite H. reflexivity.
Qed.

Lemma decode_page_absent (d : pydict) (found : Z) :
  lacks_list obj_type d ->
  decode_page obj_type (PDict d) found = ([], inr found).
Proof.
  unfold lacks_list, list_field, decode_page.
  destruct (String.eqb_spec obj_type "user/full") as [->|H1].
  { intros H. rewrite decode_kind_absent by assumption. reflexivity. }
  destruct (String.eqb_spec obj_type "general/full") as [->|H2].
  { intros H. unfold decode_kind at 1. cbn [String.eqb Ascii.eqb Bool.eqb bind ret].
    rewrite decode_kind_absent by assumption. reflexivity. }
  destruct (String.eqb_spec obj_type "general/preview") as [->|H3].
  { intros H. unfold decode_kind at 1 2.
    cbn [String.eqb Ascii.eqb Bool.eqb bind ret].
    rewrite decode_kind_absent by assumption. reflexivity. }
  intros _. unfold decode_kind.
  rewrite (proj2 (String.eqb_neq _ _) H1), (proj2 (String.eqb_neq _ _) H2),
    (proj2 (String.eqb_neq _ _) H3).
  reflexivity.
Qed.

Lemma page_absent (d : pydict) (found : Z) :
  lacks_list obj_type d ->
  page obj_type (PDict d) found
  = ([EvPrint (PDict d)],
     inr (found, if has_more (PDict d)
                 then Some (dict_get d "cursor" PNone) else None)).
Proof.
  intros H. rewrite page_not_none by discriminate.
  rewrite decode_page_absent by assumption.
  cbn [bind]. rewrite next_cursor_dict. reflexivity.
Qed.

Lemma map_yield_nil (items : list item) :
  map EvYield items = [] -> items = [].
Proof. now destruct items. Qed.

End Loop.

(** ** The facades *)

(** C8. A [general] search with [count > 9] logs the advisory once and
    raises nothing of its own: it ends the way [search_type] ends for
    the kind [general/full], with the same items yielded in the same
    order, the same transport calls and the same final transport
    state. *)
Theorem advisory_changes_nothing {St : Type}
    (make_request : St -> request -> outcome * St) (search_term : string)
    (count : Z) (cursor : pyval) (kwargs : pydict) (fuel : nat) (st : St) :
  let g := general make_request search_term count cursor kwargs fuel st in
  let s :=
    search_type make_request search_term "general/full" count cursor kwargs
      fuel st in
  9 < count ->
  trace_of g = EvWarn advisory_msg :: trace_of s
  /\ warnings (trace_of g) = [advisory_msg]
  /\ yielded (trace_of g) = yielded (trace_of s)
  /\ calls (trace_of g) = calls (trace_of s)
  /\ ending_of g = ending_of s
  /\ final_of g = final_of s.
Proof.
  intros g s H.
  assert (Hg : g = (EvWarn advisory_msg :: trace_of s, ending_of s, final_of s)).
  { unfold g, general. fold s. destruct (Z.gtb_spec count 9); [|lia].
    now destruct s as [[tr e] st']. }
  rewrite Hg. cbn [trace_of ending_of final_of fst snd warnings yielded calls].
  repeat split. f_equal. apply loop_no_warnings.
Qed.

(** ** Decoding user records *)

Lemma user_body_with_user_info (u ui : pydict) (found : Z) :
  dict_lookup u "user_info" = Some (PDict ui) ->
  user_body (PDict u) found
  = ([EvYield (User (dict_get ui "sec_uid" PNone)
                    (dict_get ui "user_id" PNone)
                    (dict_get ui "unique_id" PNone))],
     inr (found + 1)).
Proof.
  intros H.
  assert (Hg : dict_get u "user_info" PNone = PDict ui)
    by (unfold dict_get; now rewrite H).
  unfold user_body. cbn [py_get]. rewrite Hg. reflexivity.
Qed.

Lemma user_body_without_user_info (u : pydict) (found : Z) :
  dict_lookup u "user_info" = None ->
  user_body (PDict u) found = ([], inl AttributeError).
Proof.
  intros H.
  assert (Hg : dict_get u "user_info" PNone = PNone)
    by (unfold dict_get; now rewrite H).
  unfold user_body. cbn [py_get]. rewrite Hg. reflexivity.
Qed.

(** ** The sessions of the specification's scenarios *)

Example one_page_scenario :
  users_session 10 [Ret page_b]
  = ([EvCall (users_request (PInt 0)) (Ret page_b); EvPrint page_b;
      EvYield alice; EvYield bob],
     Returned, []).
Proof. reflexivity. Qed.

Example two_pages_scenario :
  users_session 4 [Ret page_a; Ret page_b]
  = ([EvCall (users_request (PInt 0)) (Ret page_a); EvPrint page_a;
      EvYield alice; EvYield bob;
      EvCall (users_request (PInt 10)) (Ret page_b); EvPrint page_b;
      EvYield alice; EvYield bob],
     Returned, []).
Proof. reflexivity. Qed.

(** ** The theorems at concrete sessions *)

Lemma next_request_uses_response_cursor_witness :
  nth_error (calls (trace_of session_unbounded)) 0
  = Some (users_request (PInt 0), Ret page_a)
  /\ nth_error (calls (trace_of session_unbounded)) 1
     = Some (users_request (PInt 10), Ret page_a)
  /\ exists c,
       py_get page_a "cursor" PNone = inr c
       /\ dict_lookup (params (users_request (PInt 10))) "cursor" = Some c
       /\ users_request (PInt 10)
          = build_request "david teather" "user/full" [] c.
Proof.
  split; [reflexivity|]. split; [reflexivity|].
  apply (next_request_uses_response_cursor scripted "david teather"
           "user/full" 3 [] (PInt 0) 5 [Ret page_a; Ret page_a; Ret page_a]
           0%nat (users_request (PInt 0)) (users_request (PInt 10))
           page_a (Ret page_a));
    reflexivity.
Defined.

Lemma null_response_is_invalid_witness :
  trace_of session_null
  = [EvCall (users_request (PInt 0)) (Ret page_a); EvPrint page_a;
     EvYield alice; EvYield bob]
    ++ EvCall (users_request (PInt 10)) (Ret PNone) :: [EvPrint PNone]
  /\ ([EvPrint PNone] = [EvPrint PNone]
      /\ ending_of session_null
         = Raised (InvalidResponseException PNone invalid_response_msg)
      /\ yielded [EvPrint PNone] = []
      /\ calls [EvPrint PNone] = []).
Proof.
  split; [reflexivity|].
  apply (null_response_is_invalid scripted "david teather" "user/full" 10 []
           (PInt 0) 5 [Ret page_a; Ret PNone]
           [EvCall (users_request (PInt 0)) (Ret page_a); EvPrint page_a;
            EvYield alice; EvYield bob]
           [EvPrint PNone] (users_request (PInt 10))).
  reflexivity.
Defined.

Lemma no_more_ends_session_witness :
  trace_of session_one_page
  = [] ++ EvCall (users_request (PInt 0)) (Ret page_b)
            :: [EvPrint page_b; EvYield alice; EvYield bob]
  /\ has_more page_b = false
  /\ (calls [EvPrint page_b; EvYield alice; EvYield bob] = []
      /\ (ending_of session_one_page = Returned
          \/ exists e, ending_of session_one_page = Raised e)
      /\ (@nil event = [] ->
          calls (trace_of session_one_page)
          = [(users_request (PInt 0), Ret page_b)])).
Proof.
  split; [reflexivity|]. split; [reflexivity|].
  apply (no_more_ends_session scripted "david teather" "user/full" 10 []
           (PInt 0) 5 [Ret page_b; Ret page_b] []
           [EvPrint page_b; EvYield alice; EvYield bob]
           (users_request (PInt 0)) page_b);
    reflexivity.
Defined.

Lemma request_parameters_witness :
  In (EvCall (users_request (PInt 0)) (Ret page_a))
     (trace_of session_unbounded)
  /\ exists c,
       params (users_request (PInt 0))
       = [ ("keyword", PStr "david teather");
           ("cursor", c);
           ("from_page", PStr "search");
           ("web_search_code", PStr web_search_code) ]
       /\ (forall post,
              trace_of session_unbounded
              = EvCall (users_request (PInt 0)) (Ret page_a) :: post ->
              c = PInt 0).
Proof.
  assert (Hin : In (EvCall (users_request (PInt 0)) (Ret page_a))
                   (trace_of session_unbounded)).
  { left. reflexivity. }
  split; [exact Hin|].
  exact (request_parameters scripted "david teather" "user/full" 3 []
           (PInt 0) 5 [Ret page_a; Ret page_a; Ret page_a] _ _ Hin).
Defined.

Lemma advisory_changes_nothing_witness :
  9 < 20
  /\ trace_of session_general
     = EvWarn advisory_msg
         :: trace_of (search_type scripted "david teather" "general/full" 20
                        (PInt 0) [] 5 [Ret video_page])
  /\ warnings (trace_of session_general) = [advisory_msg]
  /\ yielded (trace_of session_general) = [Video; Video]
  /\ ending_of session_general = Returned.
Proof.
  assert (H : 9 < 20) by lia.
  destruct (advisory_changes_nothing scripted "david teather" 20 (PInt 0) []
              5 [Ret video_page] H)
    as (Htr & Hw & Hy & Hc & He & Hf).
  split; [exact H|]. split; [exact Htr|]. split; [exact Hw|].
  unfold session_general.
  split; [rewrite Hy; reflexivity | rewrite He; reflexivity].
Defined.



(** C3, refuted as stated.  An empty mapping, and a mapping without
    [user_list], are taken for pages without items: no
    [InvalidResponseException] is raised, and after the page without
    list the session goes on and yields the items of the next page. *)
Lemma missing_list_raises_nothing :
  session_empty_payload
  = ([EvCall (users_request (PInt 0)) (Ret (PDict [])); EvPrint (PDict [])],
     Returned, [])
  /\ session_no_list
     = ([EvCall (users_request (PInt 0)) (Ret page_no_list);
         EvPrint page_no_list;
         EvCall (users_request (PInt 5)) (Ret page_b); EvPrint page_b;
         EvYield alice; EvYield bob],
        Returned, [])
  /\ (forall resp msg,
         ending_of session_empty_payload
         <> Raised (InvalidResponseException resp msg))
  /\ yielded (trace_of session_no_list) <> [].
Proof.
  repeat split; discriminate.
Qed.

(** C6, at the failing input.  A user record without [user_info] makes
    the decoder raise [AttributeError]: the record before it has been
    yielded, the record itself gives no entity, and the session ends
    with the error although [user_list] is a well-formed list. *)
Theorem decoder_fails_on_missing_user_info :
  session_bad_record
  = ([EvCall (users_request (PInt 0)) (Ret page_bad_record);
      EvPrint page_bad_record; EvYield alice],
     Raised AttributeError, []).
Proof. reflexivity. Qed.

(** * Further properties of the driver *)

Lemma next_cursor_silent (resp : pyval) : fst (next_cursor resp) = [].
Proof.
  destruct resp; try reflexivity. now rewrite next_cursor_dict.
Qed.

(** The events of a page: the print, then those of the decoding. *)
Lemma page_events (obj_type : string) (resp : pyval) (found : Z) :
  resp <> PNone ->
  fst (page obj_type resp found)
  = EvPrint resp :: fst (decode_page obj_type resp found).
Proof.
  intros H. rewrite page_not_none by assumption.
  destruct (decode_page obj_type resp found) as [tr [e|f1]]; cbn [bind fst].
  - reflexivity.
  - pose proof (next_cursor_silent resp) as Hs.
    destruct (next_cursor resp) as [tr' [e|nxt]]; cbn [fst] in Hs; subst tr';
      cbn [bind ret fst]; now rewrite ?app_nil_r.
Qed.

(** The outcome of a page whose decoding succeeds is decided by
    [next_cursor]. *)
Lemma page_after_decode (obj_type : string) (resp : pyval) (found found' : Z)
    (tr : trace) :
  resp <> PNone ->
  decode_page obj_type resp found = (tr, inr found') ->
  page obj_type resp found
  = (EvPrint resp :: tr,
     match snd (next_cursor resp) with
     | inl e => inl e
     | inr nxt => inr (found', nxt)
     end).
Proof.
  intros H Hd. rewrite page_not_none by assumption. rewrite Hd. cbn [bind].
  pose proof (next_cursor_silent resp) as Hs.
  destruct (next_cursor resp) as [tr' [e|nxt]]; cbn [fst snd] in *; subst tr';
    cbn [bind ret]; now rewrite ?app_nil_r.
Qed.

Lemma page_decode_raises (obj_type : string) (resp : pyval) (found : Z)
    (tr : trace) (e : exn) :
  resp <> PNone ->
  decode_page obj_type resp found = (tr, inl e) ->
  page obj_type resp found = (EvPrint resp :: tr, inl e).
Proof.
  intros H Hd. rewrite page_not_none by assumption. now rewrite Hd.
Qed.

(** ** Decoding one page *)

Lemma bind_ret_l {A B} (a : A) (k : A -> Gen B) : bind (ret a) k = k a.
Proof. unfold bind, ret. now destruct (k a). Qed.

Lemma bind_ret_r {A} (m : Gen A) : bind m (fun a => ret a) = m.
Proof.
  destruct m as [tr [e|a]]; cbn [bind ret]; now rewrite ?app_nil_r.
Qed.

Lemma decode_page_users (resp : pyval) (found : Z) :
  decode_page "user/full" resp found
  = decode_kind "user/full" "user/full" "user_list" user_body resp found.
Proof.
  unfold decode_page.
  change (fun found1 : Z =>
            found2 <- decode_kind "user/full" "general/full" "video_list"
                        video_body resp found1 ;;
            decode_kind "user/full" "general/preview" "suggestion_list"
              keyword_body resp found2)
    with (fun found1 : Z => found2 <- ret found1 ;; ret found2).
  destruct (decode_kind _ _ _ _ _ _) as [tr [e|a]]; cbn [bind ret];
    now rewrite ?app_nil_r.
Qed.

Lemma decode_page_videos (resp : pyval) (found : Z) :
  decode_page "general/full" resp found
  = decode_kind "general/full" "general/full" "video_list" video_body
      resp found.
Proof.
  unfold decode_page.
  change (decode_kind "general/full" "user/full" "user_list" user_body
            resp found)
    with (@ret Z found).
  rewrite bind_ret_l.
  change (fun found2 : Z =>
            decode_kind "general/full" "general/preview" "suggestion_list"
              keyword_body resp found2)
    with (fun found2 : Z => ret found2).
  apply bind_ret_r.
Qed.

Lemma decode_page_keywords (resp : pyval) (found : Z) :
  decode_page "general/preview" resp found
  = decode_kind "general/preview" "general/preview" "suggestion_list"
      keyword_body resp found.
Proof.
  unfold decode_page.
  change (decode_kind "general/preview" "user/full" "user_list" user_body
            resp found)
    with (@ret Z found).
  rewrite bind_ret_l.
  change (decode_kind "general/preview" "general/full" "video_list"
            video_body resp found)
    with (@ret Z found).
  now rewrite bind_ret_l.
Qed.

(** The list a kind iterates, when the response is a mapping that
    holds it as a list. *)
Lemma decode_kind_list (kind field : string) (body : pyval -> Z -> Gen Z)
    (d : pydict) (l : list pyval) (found : Z) :
  dict_lookup d field = Some (PList l) ->
  decode_kind kind kind field body (PDict d) found = for_each l body found.
Proof.
  intros H. unfold decode_kind. rewrite String.eqb_refl.
  cbn [py_get]. unfold dict_get. rewrite H.
  change (lift (inr (PList l))) with (ret (PList l)). rewrite bind_ret_l.
  change (lift (py_iter (PList l))) with (ret l). now rewrite bind_ret_l.
Qed.

Lemma for_each_keywords (l : list pyval) :
  forall found,
    for_each l keyword_body found
    = (map (fun k => EvYield (KeywordSuggestion k)) l,
       inr (found + Z.of_nat (List.length l))).
Proof.
  induction l as [|k l IH]; intros found.
  - cbn. now rewrite Z.add_0_r.
  - cbn [for_each]. unfold keyword_body at 1. cbn [yield emit bind ret app].
    rewrite IH. cbn [map List.length]. do 2 f_equal. lia.
Qed.

Lemma for_each_videos (l : list pyval) :
  forall found,
    for_each l video_body found
    = (repeat (EvYield Video) (List.length l),
       inr (found + Z.of_nat (List.length l))).
Proof.
  induction l as [|k l IH]; intros found.
  - cbn. now rewrite Z.add_0_r.
  - cbn [for_each]. unfold video_body at 1. cbn [yield emit bind ret app].
    rewrite IH. cbn [repeat List.length]. do 2 f_equal. lia.
Qed.

Lemma user_body_good (rec : pyval) (ui : pydict) (found : Z) :
  good_user_record rec ui ->
  user_body rec found = ([EvYield (user_of ui)], inr (found + 1)).
Proof.
  intros (u & -> & H). now apply user_body_with_user_info.
Qed.

Lemma user_body_bad (rec : pyval) (found : Z) :
  bad_user_record rec ->
  user_body rec found = ([], inl AttributeError).
Proof.
  destruct rec as [| | | | |u]; try reflexivity.
  cbn [bad_user_record].
  destruct (dict_lookup u "user_info") as [ui|] eqn:H.
  - assert (Hg : dict_get u "user_info" PNone = ui)
      by (unfold dict_get; now rewrite H).
    intros Hbad. unfold user_body. cbn [py_get]. rewrite Hg.
    destruct ui; try reflexivity. contradiction.
  - intros _. now apply user_body_without_user_info.
Qed.

(** A record is good or bad, never both. *)
Lemma user_record_dec (rec : pyval) :
  (exists ui, good_user_record rec ui) \/ bad_user_record rec.
Proof.
  destruct rec as [| | | | |u]; try (right; exact I).
  cbn [bad_user_record].
  destruct (dict_lookup u "user_info") as [[| | | | |ui]|] eqn:H;
    try (right; exact I).
  left. exists ui, u. auto.
Qed.

Lemma for_each_users (recs : list pyval) (uis : list pydict) :
  Forall2 good_user_record recs uis ->
  forall found,
    for_each recs user_body found
    = (map EvYield (map user_of uis),
       inr (found + Z.of_nat (List.length uis))).
Proof.
  induction 1 as [|rec ui recs uis Hg _ IH]; intros found.
  - cbn. now rewrite Z.add_0_r.
  - cbn [for_each]. rewrite (user_body_good _ _ _ Hg). cbn [bind].
    rewrite IH. cbn [map List.length app]. do 2 f_equal. lia.
Qed.

Lemma for_each_users_bad (recs rest : list pyval) (uis : list pydict)
    (bad : pyval) :
  Forall2 good_user_record recs uis ->
  bad_user_record bad ->
  forall found,
    for_each (recs ++ bad :: rest) user_body found
    = (map EvYield (map user_of uis), inl AttributeError).
Proof.
  intros Hg Hb. induction Hg as [|rec ui recs uis Hg _ IH]; intros found.
  - cbn [app for_each map]. now rewrite (user_body_bad _ _ Hb).
  - cbn [app for_each]. rewrite (user_body_good _ _ _ Hg). cbn [bind].
    now rewrite IH.
Qed.

(** ** Responses the decoding cannot read *)

Lemma page_not_mapping (obj_type : string) (resp : pyval) (found : Z) :
  resp <> PNone -> (forall d, resp <> PDict d) ->
  page obj_type resp found = ([EvPrint resp], inl AttributeError).
Proof.
  intros Hn Hd.
  destruct resp as [| | | | |d]; try congruence; try (now destruct (Hd d));
    unfold page, decode_page, decode_kind;
    destruct (String.eqb obj_type "user/full"),
             (String.eqb obj_type "general/full"),
             (String.eqb obj_type "general/preview");
    reflexivity.
Qed.

Lemma decode_kind_not_iterable (kind field : string)
    (body : pyval -> Z -> Gen Z) (d : pydict) (v : pyval) (found : Z) :
  dict_lookup d field = Some v -> not_iterable v ->
  decode_kind kind kind field body (PDict d) found = ([], inl TypeError).
Proof.
  intros H Hv. unfold decode_kind. rewrite String.eqb_refl.
  cbn [py_get]. unfold dict_get. rewrite H.
  destruct v; try contradiction; reflexivity.
Qed.

Lemma decode_page_not_iterable (obj_type field : string) (d : pydict)
    (v : pyval) (found : Z) :
  list_field obj_type = Some field ->
  dict_lookup d field = Some v -> not_iterable v ->
  decode_page obj_type (PDict d) found = ([], inl TypeError).
Proof.
  unfold list_field.
  destruct (String.eqb_spec obj_type "user/full") as [->|H1].
  { intros [= <-] H Hv. rewrite decode_page_users.
    now apply decode_kind_not_iterable with (v := v). }
  destruct (String.eqb_spec obj_type "general/full") as [->|H2].
  { intros [= <-] H Hv. rewrite decode_page_videos.
    now apply decode_kind_not_iterable with (v := v). }
  destruct (String.eqb_spec obj_type "general/preview") as [->|H3].
  { intros [= <-] H Hv. rewrite decode_page_keywords.
    now apply decode_kind_not_iterable with (v := v). }
  discriminate.
Qed.

(** ** The kind of the entities *)

Lemma yields_kind_ret (kind : string) {A} (a : A) : yields_kind kind (ret a).
Proof. intros i []. Qed.

Lemma yields_kind_lift (kind : string) {A} (r : exn + A) :
  yields_kind kind (lift r).
Proof. intros i []. Qed.

Lemma yields_kind_bind (kind : string) {A B} (m : Gen A) (k : A -> Gen B) :
  yields_kind kind m -> (forall a, yields_kind kind (k a)) ->
  yields_kind kind (bind m k).
Proof.
  intros Hm Hk i. destruct m as [tr [e|a]]; cbn [bind].
  - apply Hm.
  - specialize (Hk a i). destruct (k a) as [tr' r]. cbn [fst] in *.
    intros Hin. apply in_app_or in Hin. destruct Hin; [now apply Hm | auto].
Qed.

Lemma yields_kind_yield (i : item) {A} (a : A) :
  yields_kind (item_kind i) (yield i ;;; ret a).
Proof.
  intros j [[= <-]|[]]. reflexivity.
Qed.

Lemma yields_kind_user_body (user : pyval) (found : Z) :
  yields_kind "user/full" (user_body user found).
Proof.
  unfold user_body.
  repeat (apply yields_kind_bind; [apply yields_kind_lift | intros ?]).
  apply (yields_kind_yield (User _ _ _)).
Qed.

Lemma yields_kind_for_each (kind : string) (body : pyval -> Z -> Gen Z)
    (xs : list pyval) :
  (forall x f, yields_kind kind (body x f)) ->
  forall found, yields_kind kind (for_each xs body found).
Proof.
  intros Hb. induction xs as [|x xs IH]; intros found; cbn [for_each].
  - apply yields_kind_ret.
  - apply yields_kind_bind; auto.
Qed.

Lemma yields_kind_decode_kind (obj_type kind field : string)
    (body : pyval -> Z -> Gen Z) (resp : pyval) (found : Z) :
  (forall x f, yields_kind kind (body x f)) ->
  yields_kind obj_type (decode_kind obj_type kind field body resp found).
Proof.
  intros Hb. unfold decode_kind.
  destruct (String.eqb_spec obj_type kind) as [->|_].
  - repeat (apply yields_kind_bind; [apply yields_kind_lift | intros ?]).
    now apply yields_kind_for_each.
  - apply yields_kind_ret.
Qed.

Lemma yields_kind_decode_page (obj_type : string) (resp : pyval) (found : Z) :
  yields_kind obj_type (decode_page obj_type resp found).
Proof.
  unfold decode_page.
  apply yields_kind_bind; [|intros f1; apply yields_kind_bind; [|intros f2]];
    apply yields_kind_decode_kind; intros x f.
  - apply yields_kind_user_body.
  - apply (yields_kind_yield Video).
  - apply (yields_kind_yield (KeywordSuggestion x)).
Qed.

Lemma yields_kind_page (obj_type : string) (resp : pyval) (found : Z) :
  yields_kind obj_type (page obj_type resp found).
Proof.
  destruct (pyval_none_dec resp) as [->|Hn].
  - rewrite page_none. intros i [[=]|[]].
  - intros i. rewrite page_events by assumption.
    intros [[=]|Hin]. now apply (yields_kind_decode_page obj_type resp found).
Qed.

Lemma in_yielded (i : item) (tr : trace) :
  In i (yielded tr) <-> In (EvYield i) tr.
Proof.
  induction tr as [|ev tr IH]; [cbn; tauto|].
  destruct ev as [r o|resp|j|m]; cbn [yielded In]; rewrite IH;
    try (split; [auto | intros [H|H]; [discriminate | exact H]]).
  split; intros [H|H]; auto.
  - subst j. auto.
  - injection H as ->. auto.
Qed.

Section Pages.

Context {St : Type}.
Variable make_request : St -> request -> outcome * St.
Variables search_term obj_type : string.
Variable count : Z.
Variable kwargs : pydict.

Local Abbreviation loop :=
  (search_type_loop make_request search_term obj_type count kwargs).
Local Abbreviation req_at := (build_request search_term obj_type kwargs).
Local Abbreviation turn_at :=
  (turn make_request search_term obj_type count kwargs).
Local Abbreviation session :=
  (search_type make_request search_term obj_type count).

(** The counter of the loop is the number of items yielded so far: the
    turn that makes a call of the trace starts from the counter the
    loop was entered with plus the items yielded before that call. *)
Lemma loop_suffix_found (fuel : nat) :
  forall (found : Z) (cursor : pyval) (st : St)
         (pre post : trace) (r : request) (o : outcome),
    trace_of (loop fuel found cursor st) = pre ++ EvCall r o :: post ->
    exists fuel' cursor' st',
      found + count_yielded pre < count
      /\ r = req_at cursor'
      /\ make_request st' r = (o, snd (make_request st' r))
      /\ turn_at fuel' (found + count_yielded pre) cursor' st'
           (EvCall r o :: post,
            ending_of (loop fuel found cursor st),
            final_of (loop fuel found cursor st)).
Proof.
  induction fuel as [|fuel IH]; intros found cursor st pre post r o H.
  - exfalso. destruct (Z_lt_le_dec found count) as [Hlt|Hge].
    + rewrite loop_no_fuel in H by assumption.
      now apply app_cons_not_nil in H.
    + rewrite loop_done in H by assumption.
      now apply app_cons_not_nil in H.
  - destruct (Z_lt_le_dec found count) as [Hlt|Hge].
    2:{ rewrite loop_done in H by assumption.
        now apply app_cons_not_nil in H. }
    pose proof (loop_turn make_request search_term obj_type count kwargs
                  fuel found cursor st Hlt) as Ht.
    remember (loop (S fuel) found cursor st) as res eqn:E.
    destruct pre as [|ev pre].
    { exists fuel, cursor, st.
      replace (found + count_yielded []) with found by (cbn; lia).
      split; [assumption|].
      assert (Hres : res = (EvCall r o :: post, ending_of res, final_of res)).
      { destruct res as [[tr e] stf]. cbn [trace_of fst app] in H.
        now subst tr. }
      rewrite Hres in Ht.
      split; [|split; [|exact Ht]].
      - inversion Ht; reflexivity.
      - inversion Ht; subst;
          match goal with
          | Hq : make_request _ _ = _ |- _ => rewrite Hq; reflexivity
          end. }
    destruct Ht as [e st' Hreq | resp st' items e Hreq Hpage
                   | d st' items Hreq Hpage Hm | d st' items Hreq Hpage Hm next];
      cbn [trace_of ending_of final_of fst snd app] in H |- *;
      injection H as <- H.
    + now apply app_cons_not_nil in H.
    + destruct pre as [|ev' pre]; [discriminate|]. injection H as _ H.
      rewrite <- (app_nil_r (map EvYield items)) in H.
      apply call_after_yields in H. destruct H as (pre' & H & _).
      now apply app_cons_not_nil in H.
    + destruct pre as [|ev' pre]; [discriminate|]. injection H as _ H.
      rewrite <- (app_nil_r (map EvYield items)) in H.
      apply call_after_yields in H. destruct H as (pre' & H & _).
      now apply app_cons_not_nil in H.
    + destruct pre as [|ev' pre]; [discriminate|]. injection H as <- H.
      apply call_after_yields in H. destruct H as (pre' & H & ->).
      destruct (IH _ _ _ _ _ _ _ H) as (fuel' & cursor' & st2 & Hlt' & Hr & Hq & Ht').
      exists fuel', cursor', st2.
      change (count_yielded (EvCall ?a ?b :: EvPrint ?p :: ?t))
        with (count_yielded t).
      rewrite count_yielded_app, count_yielded_yields, Z.add_assoc.
      auto.
Qed.

Lemma session_turn (cursor : pyval) (fuel : nat) (st : St)
    (pre post : trace) (r : request) (o : outcome) :
  let run := session cursor kwargs fuel st in
  trace_of run = pre ++ EvCall r o :: post ->
  exists fuel' cursor' st',
    count_yielded pre < count
    /\ r = req_at cursor'
    /\ turn_at fuel' (count_yielded pre) cursor' st'
         (EvCall r o :: post, ending_of run, final_of run).
Proof.
  intros run H. unfold run, search_type in *.
  destruct (loop_suffix_found _ _ _ _ _ _ _ _ H)
    as (fuel' & cursor' & st' & Hlt & Hr & _ & Ht).
  rewrite Z.add_0_l in Hlt, Ht. exists fuel', cursor', st'. auto.
Qed.

(** What follows a call that returned [resp] is what [page] does with
    [resp], and then, when the page asks for it, the loop again. *)
Lemma turn_with_page (fuel : nat) (found : Z) (cursor : pyval) (st : St)
    (r : request) (resp : pyval) (post ptr : trace) (e : ending) (stf : St)
    (res : exn + Z * option pyval) :
  turn_at fuel found cursor st (EvCall r (Ret resp) :: post, e, stf) ->
  page obj_type resp found = (ptr, res) ->
  match res with
  | inl ex => post = ptr /\ e = Raised ex
  | inr (_, None) => post = ptr /\ e = Returned
  | inr (found', Some c) =>
      exists st',
        post = ptr ++ trace_of (loop fuel found' c st')
        /\ e = ending_of (loop fuel found' c st')
  end.
Proof.
  intros Ht Hp.
  inversion Ht as [ | resp' st2 items ex Hreq Hpage
                  | d st2 items Hreq Hpage Hm | d st2 items Hreq Hpage Hm next ];
    subst; rewrite Hpage in Hp; injection Hp as <- <-; auto.
  exists st2. auto.
Qed.

(** X1. An exception of the transport goes through the driver as it
    is: the session ends with that very exception at that call, with
    nothing printed, yielded or requested after it. *)
Theorem transport_error_propagates (cursor : pyval) (fuel : nat) (st : St)
    (pre post : trace) (r : request) (e : exn) :
  let run := session cursor kwargs fuel st in
  trace_of run = pre ++ EvCall r (Throw e) :: post ->
  post = [] /\ ending_of run = Raised e.
Proof.
  intros run H.
  destruct (session_turn _ _ _ _ _ _ _ H)
    as (fuel' & cursor' & st' & _ & _ & Ht).
  inversion Ht; subst. auto.
Qed.

(** X2. The transport is only called while fewer than [count] items
    have been yielded: before every call of a session, the items
    yielded so far number less than [count]. *)
Theorem no_request_once_count_reached (cursor : pyval) (fuel : nat) (st : St)
    (pre post : trace) (r : request) (o : outcome) :
  let run := session cursor kwargs fuel st in
  trace_of run = pre ++ EvCall r o :: post ->
  count_yielded pre < count.
Proof.
  intros run H.
  destruct (session_turn _ _ _ _ _ _ _ H) as (_ & _ & _ & Hlt & _).
  exact Hlt.
Qed.

(** X3. Every request of a session goes to the search endpoint of its
    kind and carries the caller's [headers] and [session_index]
    options, [None] standing for an option the caller left out. *)
Theorem request_envelope (cursor : pyval) (fuel : nat) (st : St)
    (r : request) (o : outcome) :
  let run := session cursor kwargs fuel st in
  In (EvCall r o) (trace_of run) ->
  url r = ("https://www.tiktok.com/api/search/" ++ obj_type ++ "/")%string
  /\ headers r = dict_get kwargs "headers" PNone
  /\ session_index r = dict_get kwargs "session_index" PNone.
Proof.
  intros run Hin.
  destruct (in_split _ _ Hin) as (pre & post & H).
  destruct (session_turn _ _ _ _ _ _ _ H)
    as (fuel' & cursor' & st' & _ & -> & _).
  auto.
Qed.

Lemma printed_yields (items : list item) : printed (map EvYield items) = [].
Proof. induction items; simpl; auto. Qed.

Lemma responses_yields (items : list item) :
  responses (map EvYield items) = [].
Proof. induction items; simpl; auto. Qed.

Lemma printed_app (a b : trace) : printed (a ++ b) = printed a ++ printed b.
Proof.
  induction a as [|[| | |] a IH]; simpl; try rewrite IH; reflexivity.
Qed.

Lemma responses_app (a b : trace) :
  responses (a ++ b) = responses a ++ responses b.
Proof.
  induction a as [|[r [resp|e]| | |] a IH]; simpl; try rewrite IH; reflexivity.
Qed.

Lemma loop_prints_responses (fuel : nat) :
  forall (found : Z) (cursor : pyval) (st : St),
    printed (trace_of (loop fuel found cursor st))
    = responses (trace_of (loop fuel found cursor st)).
Proof.
  induction fuel as [|fuel IH]; intros found cursor st;
    destruct (Z_lt_le_dec found count) as [Hlt|Hge];
    rewrite ?(loop_done make_request), ?(loop_no_fuel make_request)
      by assumption;
    try reflexivity.
  destruct (loop_turn make_request search_term obj_type count kwargs
              fuel found cursor st Hlt);
    cbn [trace_of fst printed responses];
    rewrite ?printed_app, ?responses_app, ?printed_yields, ?responses_yields;
    try reflexivity.
  cbn [app]. f_equal. apply IH.
Qed.

(** X4. Every response the transport returns is printed, once and in
    the order of the calls, [None] included; nothing else is printed. *)
Theorem responses_are_printed (cursor : pyval) (fuel : nat) (st : St) :
  let run := session cursor kwargs fuel st in
  printed (trace_of run) = responses (trace_of run).
Proof.
  intros run. apply loop_prints_responses.
Qed.

Lemma loop_trace_head (fuel : nat) (found : Z) (cursor : pyval) (st : St) :
  trace_of (loop fuel found cursor st) = []
  \/ exists r o tl, trace_of (loop fuel found cursor st) = EvCall r o :: tl.
Proof.
  destruct (Z_lt_le_dec found count) as [Hlt|Hge].
  2:{ left. now rewrite (loop_done make_request). }
  destruct fuel as [|fuel].
  { left. now rewrite (loop_no_fuel make_request). }
  right.
  destruct (loop_turn make_request search_term obj_type count kwargs
              fuel found cursor st Hlt);
    cbn [trace_of fst]; eauto.
Qed.

(** After a page that decodes: its events, then nothing when the page
    has no more, and otherwise the loop again. *)
Lemma decoded_page_follows (cursor : pyval) (fuel : nat) (st : St)
    (pre post tr : trace) (r : request) (d : pydict) (found' : Z) :
  let run := session cursor kwargs fuel st in
  trace_of run = pre ++ EvCall r (Ret (PDict d)) :: post ->
  decode_page obj_type (PDict d) (count_yielded pre) = (tr, inr found') ->
  exists tl,
    post = EvPrint (PDict d) :: tr ++ tl
    /\ (tl = [] \/ exists r' o' tl', tl = EvCall r' o' :: tl')
    /\ (has_more (PDict d) = false -> tl = [] /\ ending_of run = Returned).
Proof.
  intros run H Hd.
  destruct (session_turn _ _ _ _ _ _ _ H)
    as (fuel' & cursor' & st' & _ & _ & Ht).
  pose proof (page_after_decode obj_type (PDict d) _ _ _
                ltac:(discriminate) Hd) as Hp.
  rewrite next_cursor_dict in Hp. cbn [snd] in Hp.
  pose proof (turn_with_page _ _ _ _ _ _ _ _ _ _ _ Ht Hp) as Hw.
  destruct (has_more (PDict d)); cbn beta iota in Hw.
  - destruct Hw as (st2 & -> & _).
    eexists. split; [reflexivity|]. split; [apply loop_trace_head|].
    discriminate.
  - destruct Hw as [-> He]. exists []. rewrite app_nil_r. auto.
Qed.

(** After a page that raises: its events, and the session is over. *)
Lemma failed_page_follows (cursor : pyval) (fuel : nat) (st : St)
    (pre post ptr : trace) (r : request) (resp : pyval) (e : exn) :
  let run := session cursor kwargs fuel st in
  trace_of run = pre ++ EvCall r (Ret resp) :: post ->
  page obj_type resp (count_yielded pre) = (ptr, inl e) ->
  post = ptr /\ ending_of run = Raised e.
Proof.
  intros run H Hp.
  destruct (session_turn _ _ _ _ _ _ _ H)
    as (fuel' & cursor' & st' & _ & _ & Ht).
  exact (turn_with_page _ _ _ _ _ _ _ _ _ _ _ Ht Hp).
Qed.

(** X6. A response that is neither [None] nor a mapping (a list, a
    string, a number, a boolean) ends the session with
    [AttributeError], whatever the kind: it is printed, and nothing is
    yielded or requested after it. *)
Theorem non_mapping_response_raises (cursor : pyval) (fuel : nat) (st : St)
    (pre post : trace) (r : request) (resp : pyval) :
  let run := session cursor kwargs fuel st in
  trace_of run = pre ++ EvCall r (Ret resp) :: post ->
  resp <> PNone ->
  (forall d, resp <> PDict d) ->
  post = [EvPrint resp] /\ ending_of run = Raised AttributeError.
Proof.
  intros run H Hn Hd.
  exact (failed_page_follows _ _ _ _ _ _ _ _ _ H
           (page_not_mapping _ _ _ Hn Hd)).
Qed.

(** X7. A mapping whose list field for the session's kind holds
    [None], a boolean or a number ends the session with [TypeError]:
    the response is printed, and nothing is yielded or requested after
    it. *)
Theorem non_iterable_list_raises (cursor : pyval) (fuel : nat) (st : St)
    (pre post : trace) (r : request) (d : pydict) (field : string)
    (v : pyval) :
  let run := session cursor kwargs fuel st in
  trace_of run = pre ++ EvCall r (Ret (PDict d)) :: post ->
  list_field obj_type = Some field ->
  dict_lookup d field = Some v ->
  not_iterable v ->
  post = [EvPrint (PDict d)] /\ ending_of run = Raised TypeError.
Proof.
  intros run H Hf Hl Hv.
  apply (failed_page_follows _ _ _ _ _ _ _ _ _ H).
  apply page_decode_raises; [discriminate|].
  now apply decode_page_not_iterable with (field := field) (v := v).
Qed.

Lemma loop_items_kind (fuel : nat) :
  forall (found : Z) (cursor : pyval) (st : St) (i : item),
    In (EvYield i) (trace_of (loop fuel found cursor st)) ->
    item_kind i = obj_type.
Proof.
  induction fuel as [|fuel IH]; intros found cursor st i;
    destruct (Z_lt_le_dec found count) as [Hlt|Hge];
    rewrite ?(loop_done make_request), ?(loop_no_fuel make_request)
      by assumption;
    try (intros []).
  assert (Hitems : forall resp found items res,
    page obj_type resp found = (EvPrint resp :: map EvYield items, res) ->
    In (EvYield i) (map EvYield items) -> item_kind i = obj_type).
  { intros resp f items res Hp Hin.
    apply (yields_kind_page obj_type resp f). rewrite Hp. now right. }
  destruct (loop_turn make_request search_term obj_type count kwargs
              fuel found cursor st Hlt)
    as [e st' Hreq | resp' st' items e Hreq Hpage
       | d st' items Hreq Hpage Hm | d st' items Hreq Hpage Hm next];
    cbn [trace_of fst In].
  - intros [Hin|[]]. discriminate.
  - intros [Hin|[Hin|Hin]]; try discriminate; eauto.
  - intros [Hin|[Hin|Hin]]; try discriminate; eauto.
  - intros [Hin|[Hin|Hin]]; try discriminate.
    apply in_app_or in Hin. destruct Hin as [Hin|Hin]; eauto.
Qed.

(** X8. A session only yields entities of its own kind: users for
    [user/full], videos for [general/full], keyword suggestions for
    [general/preview]. *)
Theorem items_are_of_the_session_kind (cursor : pyval) (fuel : nat) (st : St)
    (i : item) :
  let run := session cursor kwargs fuel st in
  In i (yielded (trace_of run)) -> item_kind i = obj_type.
Proof.
  intros run Hin. apply in_yielded in Hin.
  exact (loop_items_kind _ _ _ _ _ Hin).
Qed.

(** X9. A kind that is none of the three is not refused: with
    [count > 0] the transport is called for it all the same, at the
    endpoint named after it, and the session yields nothing. *)
Theorem unknown_kind_yields_nothing (cursor : pyval) (fuel : nat) (st : St) :
  let run := session cursor kwargs (S fuel) st in
  list_field obj_type = None ->
  0 < count ->
  yielded (trace_of run) = []
  /\ exists o tl,
       trace_of run = EvCall (req_at cursor) o :: tl.
Proof.
  intros run Hk Hpos. split.
  - destruct (yielded (trace_of run)) as [|i l] eqn:Hy; [reflexivity|].
    assert (Hin : In i (yielded (trace_of run))) by (rewrite Hy; now left).
    apply in_yielded in Hin. apply loop_items_kind in Hin.
    rewrite <- Hin in Hk. destruct i; discriminate.
  - unfold run, search_type.
    destruct (loop_turn make_request search_term obj_type count kwargs
                fuel 0 cursor st Hpos);
      cbn [trace_of fst]; eauto.
Qed.

Lemma loop_barren (fuel : nat) :
  (forall st r, exists resp st',
      make_request st r = (Ret resp, st') /\ barren obj_type resp) ->
  forall (found : Z) (cursor : pyval) (st : St),
    found < count ->
    let run := loop fuel found cursor st in
    ending_of run = OutOfFuel
    /\ List.length (calls (trace_of run)) = fuel
    /\ yielded (trace_of run) = [].
Proof.
  intros Hb. induction fuel as [|fuel IH]; intros found cursor st Hlt run;
    subst run.
  - rewrite (loop_no_fuel make_request) by assumption. auto.
  - cbn [search_type_loop]. destruct (Z.ltb_spec found count); [|lia].
    destruct (Hb st (req_at cursor)) as (resp & st' & -> & Hbar).
    destruct (Hbar found) as (c & ->).
    destruct (IH found c st' Hlt) as (He & Hc & Hy).
    destruct (loop fuel found c st') as [[tr e] stf].
    cbn [trace_of ending_of fst snd calls yielded app List.length] in *.
    auto.
Qed.

(** X10. The loop has no guard against pages that bring nothing: when
    the transport keeps answering pages that decode without an item
    and report a truthy [has_more], a session with [count > 0] never
    ends.  Whatever number of pages it is given, it fetches them all,
    yields nothing and is still running. *)
Theorem barren_pages_never_end (cursor : pyval) (fuel : nat) (st : St) :
  let run := session cursor kwargs fuel st in
  (forall st r, exists resp st',
      make_request st r = (Ret resp, st') /\ barren obj_type resp) ->
  0 < count ->
  ending_of run = OutOfFuel
  /\ List.length (calls (trace_of run)) = fuel
  /\ yielded (trace_of run) = [].
Proof.
  intros run Hb Hpos. exact (loop_barren fuel Hb 0 cursor st Hpos).
Qed.

Lemma loop_productive (fuel : nat) :
  (forall st r, exists resp st',
      make_request st r = (Ret resp, st') /\ productive obj_type resp) ->
  forall (found : Z) (cursor : pyval) (st : St),
    (Z.to_nat (count - found) <= fuel)%nat ->
    let run := loop fuel found cursor st in
    ending_of run = Returned
    /\ count <= found + count_yielded (trace_of run)
    /\ (List.length (calls (trace_of run)) <= Z.to_nat (count - found))%nat.
Proof.
  intros Hprod. induction fuel as [|fuel IH]; intros found cursor st Hfuel run;
    subst run; destruct (Z_lt_le_dec found count) as [Hlt|Hge];
    rewrite ?(loop_done make_request) by assumption;
    try (cbn; repeat split; lia).
  destruct (Hprod st (req_at cursor)) as (resp & st1 & Hreq1 & Hp).
  destruct (Hp found) as (tr & found' & c & Hpage1 & Hgrow).
  destruct (loop_turn make_request search_term obj_type count kwargs
              fuel found cursor st Hlt)
    as [e st' Hreq | resp' st' items e Hreq Hpage
       | d st' items Hreq Hpage Hm | d st' items Hreq Hpage Hm next];
    try congruence.
  rewrite Hreq1 in Hreq. injection Hreq as -> <-.
  rewrite Hpage1 in Hpage. injection Hpage as _ Hf _.
  destruct (IH (found + Z.of_nat (List.length items))
              (dict_get d "cursor" PNone) st1 ltac:(lia))
    as (He & Hy & Hc).
  fold next in He, Hy, Hc.
  cbn [trace_of ending_of fst snd calls].
  change (count_yielded (EvCall ?a ?b :: EvPrint ?p :: ?t))
    with (count_yielded t).
  rewrite count_yielded_app, count_yielded_yields, calls_app, calls_yields.
  cbn [app List.length]. fold (trace_of next) (ending_of next).
  repeat split; [assumption | lia | lia].
Qed.

(** X11. When the transport keeps answering pages that decode, hold at
    least one item and report a truthy [has_more], a session that may
    fetch [count] pages returns, with at least [count] items yielded
    and at most [count] calls made. *)
Theorem productive_pages_end (cursor : pyval) (fuel : nat) (st : St) :
  let run := session cursor kwargs fuel st in
  (forall st r, exists resp st',
      make_request st r = (Ret resp, st') /\ productive obj_type resp) ->
  (Z.to_nat count <= fuel)%nat ->
  ending_of run = Returned
  /\ count <= count_yielded (trace_of run)
  /\ (List.length (calls (trace_of run)) <= Z.to_nat count)%nat.
Proof.
  intros run Hprod Hfuel.
  destruct (loop_productive fuel Hprod 0 cursor st) as (He & Hy & Hc).
  { now rewrite Z.sub_0_r. }
  rewrite Z.sub_0_r in Hc. auto.
Qed.

(** Entered with [found < count], the loop either has no page left to
    fetch or begins with the request at its cursor. *)
Lemma loop_next_event (fuel : nat) (found : Z) (cursor : pyval) (st : St) :
  found < count ->
  (trace_of (loop fuel found cursor st) = []
   /\ ending_of (loop fuel found cursor st) = OutOfFuel)
  \/ exists o tl,
       trace_of (loop fuel found cursor st) = EvCall (req_at cursor) o :: tl.
Proof.
  intros Hlt. destruct fuel as [|fuel].
  - left. now rewrite (loop_no_fuel make_request).
  - right.
    destruct (loop_turn make_request search_term obj_type count kwargs
                fuel found cursor st Hlt);
      cbn [trace_of fst]; eauto.
Qed.


(** C3, as the code has it.  A response that is a mapping without the
    list field of the requested kind (the empty mapping among them)
    raises nothing and yields no item.  When its [has_more] is false or
    absent the generator returns.  Otherwise the session goes on as the
    loop started from the response's cursor with the counter unchanged,
    which is below [count]: unless no page is left to fetch, the event
    after the print is the request of the next page, at the response's
    cursor. *)
Theorem absent_list_is_an_empty_page (cursor : pyval) (fuel : nat) (st : St)
    (pre post : trace) (r : request) (d : pydict) :
  let run := session cursor kwargs fuel st in
  trace_of run = pre ++ EvCall r (Ret (PDict d)) :: post ->
  lacks_list obj_type d ->
  (has_more (PDict d) = false ->
   post = [EvPrint (PDict d)] /\ ending_of run = Returned)
  /\ (has_more (PDict d) = true ->
      count_yielded pre < count
      /\ (exists fuel' st',
            let next :=
              loop fuel' (count_yielded pre) (dict_get d "cursor" PNone) st' in
            post = EvPrint (PDict d) :: trace_of next
            /\ ending_of run = ending_of next)
      /\ ((post = [EvPrint (PDict d)] /\ ending_of run = OutOfFuel)
          \/ exists o tl,
               post = EvPrint (PDict d)
                        :: EvCall (req_at (dict_get d "cursor" PNone)) o
                        :: tl)).
Proof.
  intros run H Hlack.
  destruct (session_turn _ _ _ _ _ _ _ H)
    as (fuel' & cursor' & st' & Hlt & _ & Ht).
  pose proof (page_absent obj_type d (count_yielded pre) Hlack) as Hp.
  pose proof (turn_with_page _ _ _ _ _ _ _ _ _ _ _ Ht Hp) as Hw.
  destruct (has_more (PDict d)); cbn beta iota in Hw.
  - split; [discriminate|]. intros _.
    destruct Hw as (st2 & Hpost & He). cbn [app] in Hpost.
    split; [assumption|]. split.
    + exists fuel', st2. cbv zeta. auto.
    + destruct (loop_next_event fuel' (count_yielded pre)
                  (dict_get d "cursor" PNone) st2 Hlt)
        as [[Hnil Hout]|(o & tl & Hcall)].
      * left. split; [now rewrite Hpost, Hnil|].
        unfold run. now rewrite He.
      * right. exists o, tl. now rewrite Hpost, Hcall.
  - destruct Hw as [Hpost He]. split; [auto|discriminate].
Qed.

End Pages.

(** X5. Of the caller's options only [headers] and [session_index]
    matter: two option bags that agree on these two give the same
    session. *)
Theorem other_options_are_ignored {St : Type}
    (make_request : St -> request -> outcome * St)
    (search_term obj_type : string) (count : Z) (cursor : pyval)
    (kwargs1 kwargs2 : pydict) (fuel : nat) (st : St) :
  dict_get kwargs1 "headers" PNone = dict_get kwargs2 "headers" PNone ->
  dict_get kwargs1 "session_index" PNone
  = dict_get kwargs2 "session_index" PNone ->
  search_type make_request search_term obj_type count cursor kwargs1 fuel st
  = search_type make_request search_term obj_type count cursor kwargs2 fuel st.
Proof.
  intros Hh Hs. unfold search_type. generalize 0 at 1 2. revert cursor st.
  assert (Hreq : forall c,
    build_request search_term obj_type kwargs1 c
    = build_request search_term obj_type kwargs2 c).
  { intros c. unfold build_request. now rewrite Hh, Hs. }
  induction fuel as [|fuel IH]; intros cursor st found;
    cbn [search_type_loop]; [reflexivity|].
  rewrite Hreq.
  destruct (found <? count); [|reflexivity].
  destruct (make_request st _) as [[resp|e] st']; [|reflexivity].
  destruct (page obj_type resp found) as [tr [e|[found' [c|]]]];
    try reflexivity.
  now rewrite IH.
Qed.

(** ** The pages of each facade *)

Section Facades.

Context {St : Type}.
Variable make_request : St -> request -> outcome * St.
Variable search_term : string.
Variable count : Z.
Variable kwargs : pydict.

(** X12. Every page of a [users] session whose [user_list] is a list
    of records with a [user_info] mapping yields one user per record,
    in the order of the list, built from [sec_uid], [user_id] and
    [unique_id] with [None] for an identifier that is missing; after
    these items comes the next request or the end of the session, which
    is a normal return when the page has no more. *)
Theorem users_page_yields_its_records (cursor : pyval) (fuel : nat) (st : St)
    (pre post : trace) (r : request) (d : pydict) (recs : list pyval)
    (uis : list pydict) :
  let run := users make_request search_term count cursor kwargs fuel st in
  trace_of run = pre ++ EvCall r (Ret (PDict d)) :: post ->
  dict_lookup d "user_list" = Some (PList recs) ->
  Forall2 good_user_record recs uis ->
  exists tl,
    post = EvPrint (PDict d) :: map EvYield (map user_of uis) ++ tl
    /\ (tl = [] \/ exists r' o' tl', tl = EvCall r' o' :: tl')
    /\ (has_more (PDict d) = false -> tl = [] /\ ending_of run = Returned).
Proof.
  intros run H Hl Hg.
  apply (decoded_page_follows make_request search_term "user/full" count
           kwargs cursor fuel st pre post _ r d
           (count_yielded pre + Z.of_nat (List.length uis)) H).
  rewrite decode_page_users, (decode_kind_list _ _ _ _ _ _ Hl).
  now apply for_each_users.
Qed.

(** X13. A page of a [users] session stops at the first record that is
    not a mapping with a [user_info] mapping: the users of the records
    before it have been yielded, the session ends with
    [AttributeError], and the records after it, [has_more] and
    [cursor] are never looked at. *)
Theorem users_page_stops_at_bad_record (cursor : pyval) (fuel : nat) (st : St)
    (pre post : trace) (r : request) (d : pydict) (recs rest : list pyval)
    (bad : pyval) (uis : list pydict) :
  let run := users make_request search_term count cursor kwargs fuel st in
  trace_of run = pre ++ EvCall r (Ret (PDict d)) :: post ->
  dict_lookup d "user_list" = Some (PList (recs ++ bad :: rest)) ->
  Forall2 good_user_record recs uis ->
  bad_user_record bad ->
  post = EvPrint (PDict d) :: map EvYield (map user_of uis)
  /\ ending_of run = Raised AttributeError.
Proof.
  intros run H Hl Hg Hb.
  apply (failed_page_follows make_request search_term "user/full" count
           kwargs cursor fuel st pre post _ r (PDict d) AttributeError H).
  apply page_decode_raises; [discriminate|].
  rewrite decode_page_users, (decode_kind_list _ _ _ _ _ _ Hl).
  now apply for_each_users_bad.
Qed.

(** X14. Every page of a [keyword_suggestion] session whose
    [suggestion_list] is a list yields one suggestion per element, in
    order, wrapping the element as it is, whatever value it is. *)
Theorem keyword_page_yields_its_elements (cursor : pyval) (fuel : nat)
    (st : St) (pre post : trace) (r : request) (d : pydict)
    (l : list pyval) :
  let run :=
    keyword_suggestion make_request search_term count cursor kwargs fuel st in
  trace_of run = pre ++ EvCall r (Ret (PDict d)) :: post ->
  dict_lookup d "suggestion_list" = Some (PList l) ->
  exists tl,
    post = EvPrint (PDict d)
             :: map (fun k => EvYield (KeywordSuggestion k)) l ++ tl
    /\ (tl = [] \/ exists r' o' tl', tl = EvCall r' o' :: tl')
    /\ (has_more (PDict d) = false -> tl = [] /\ ending_of run = Returned).
Proof.
  intros run H Hl.
  apply (decoded_page_follows make_request search_term "general/preview"
           count kwargs cursor fuel st pre post _ r d
           (count_yielded pre + Z.of_nat (List.length l)) H).
  rewrite decode_page_keywords, (decode_kind_list _ _ _ _ _ _ Hl).
  apply for_each_keywords.
Qed.

(** The trace of [general]: the advisory, when there is one, and then
    the trace of the session. *)
Lemma general_call (cursor : pyval) (fuel : nat) (st : St)
    (pre post : trace) (r : request) (o : outcome) :
  let g := general make_request search_term count cursor kwargs fuel st in
  let s :=
    search_type make_request search_term "general/full" count cursor kwargs
      fuel st in
  trace_of g = pre ++ EvCall r o :: post ->
  ending_of g = ending_of s
  /\ exists pre', trace_of s = pre' ++ EvCall r o :: post
                  /\ count_yielded pre' = count_yielded pre.
Proof.
  intros g s. unfold g, general. fold s.
  destruct s as [[tr e] st']. cbn [trace_of ending_of fst snd].
  destruct (count >? 9); cbn [app]; intros H.
  - split; [reflexivity|]. destruct pre as [|ev pre]; [discriminate|].
    injection H as <- H. exists pre. auto.
  - split; [reflexivity|]. exists pre. auto.
Qed.

(** X15. Every page of a [general] session whose [video_list] is a
    list yields one video entity per record, and the entity is built
    without the record: the items of the page depend on the number of
    records only. *)
Theorem general_page_ignores_its_records (cursor : pyval) (fuel : nat)
    (st : St) (pre post : trace) (r : request) (d : pydict)
    (l : list pyval) :
  let run := general make_request search_term count cursor kwargs fuel st in
  trace_of run = pre ++ EvCall r (Ret (PDict d)) :: post ->
  dict_lookup d "video_list" = Some (PList l) ->
  exists tl,
    post = EvPrint (PDict d) :: repeat (EvYield Video) (List.length l) ++ tl
    /\ (tl = [] \/ exists r' o' tl', tl = EvCall r' o' :: tl')
    /\ (has_more (PDict d) = false -> tl = [] /\ ending_of run = Returned).
Proof.
  intros run H Hl.
  destruct (general_call _ _ _ _ _ _ _ H) as (He & pre' & H' & Hc).
  fold run in He. rewrite He.
  apply (decoded_page_follows make_request search_term "general/full"
           count kwargs cursor fuel st pre' post _ r d
           (count_yielded pre' + Z.of_nat (List.length l)) H').
  rewrite decode_page_videos, (decode_kind_list _ _ _ _ _ _ Hl).
  apply for_each_videos.
Qed.

(** X16. The advisory is logged by [general] with [count > 9] and by
    nothing else: [general] with [count <= 9] is the plain session for
    [general/full], and [users] and [keyword_suggestion] never log. *)
Theorem advisory_only_for_large_general (cursor : pyval) (fuel : nat)
    (st : St) :
  warnings
    (trace_of (general make_request search_term count cursor kwargs fuel st))
  = (if count >? 9 then [advisory_msg] else [])
  /\ (count <= 9 ->
      general make_request search_term count cursor kwargs fuel st
      = search_type make_request search_term "general/full" count cursor
          kwargs fuel st)
  /\ warnings
       (trace_of (users make_request search_term count cursor kwargs fuel st))
     = []
  /\ warnings
       (trace_of
          (keyword_suggestion make_request search_term count cursor kwargs
             fuel st))
     = [].
Proof.
  assert (Hs : forall kind,
    warnings
      (trace_of
         (search_type make_request search_term kind count cursor kwargs
            fuel st)) = [])
    by (intros kind; apply loop_no_warnings).
  unfold users, keyword_suggestion. rewrite !Hs.
  repeat split.
  - unfold general. specialize (Hs "general/full").
    destruct (search_type _ _ _ _ _ _ _ _) as [[tr e] st'].
    cbn [trace_of fst] in *. rewrite warnings_app, Hs, app_nil_r.
    now destruct (count >? 9).
  - intros Hle. unfold general. destruct (Z.gtb_spec count 9); [lia|].
    now destruct (search_type _ _ _ _ _ _ _ _) as [[tr e] st'].
Qed.

End Facades.

(** ** The exceptions of a session *)

Lemma lookup_errors_ret {A} (a : A) : raises_lookup_errors (ret a).
Proof. intros e [=]. Qed.

Lemma lookup_errors_bind {A B} (m : Gen A) (k : A -> Gen B) :
  raises_lookup_errors m -> (forall a, raises_lookup_errors (k a)) ->
  raises_lookup_errors (bind m k).
Proof.
  intros Hm Hk e. destruct m as [tr [e'|a]]; cbn [bind].
  - cbn [snd]. intros [= <-]. exact (Hm e' eq_refl).
  - specialize (Hk a e). destruct (k a) as [tr' r]. exact Hk.
Qed.

Lemma lookup_errors_get (v : pyval) (key : string) (default : pyval) :
  raises_lookup_errors (lift (py_get v key default)).
Proof. intros e. destruct v; cbn; intros [=]; auto. Qed.

Lemma lookup_errors_iter (v : pyval) : raises_lookup_errors (lift (py_iter v)).
Proof. intros e. destruct v; cbn; intros [=]; auto. Qed.

Lemma lookup_errors_yield (i : item) {A} (a : A) :
  raises_lookup_errors (yield i ;;; ret a).
Proof. intros e [=]. Qed.

Lemma lookup_errors_user_body (user : pyval) (found : Z) :
  raises_lookup_errors (user_body user found).
Proof.
  unfold user_body.
  repeat (apply lookup_errors_bind; [apply lookup_errors_get | intros ?]).
  apply lookup_errors_yield.
Qed.

Lemma lookup_errors_for_each (body : pyval -> Z -> Gen Z) (xs : list pyval) :
  (forall x f, raises_lookup_errors (body x f)) ->
  forall found, raises_lookup_errors (for_each xs body found).
Proof.
  intros Hb. induction xs as [|x xs IH]; intros found; cbn [for_each].
  - apply lookup_errors_ret.
  - apply lookup_errors_bind; auto.
Qed.

Lemma lookup_errors_decode_kind (obj_type kind field : string)
    (body : pyval -> Z -> Gen Z) (resp : pyval) (found : Z) :
  (forall x f, raises_lookup_errors (body x f)) ->
  raises_lookup_errors (decode_kind obj_type kind field body resp found).
Proof.
  intros Hb. unfold decode_kind. destruct (String.eqb obj_type kind).
  - apply lookup_errors_bind; [apply lookup_errors_get | intros l].
    apply lookup_errors_bind; [apply lookup_errors_iter | intros xs].
    now apply lookup_errors_for_each.
  - apply lookup_errors_ret.
Qed.

Lemma lookup_errors_decode_page (obj_type : string) (resp : pyval)
    (found : Z) :
  raises_lookup_errors (decode_page obj_type resp found).
Proof.
  unfold decode_page.
  apply lookup_errors_bind; [|intros f1; apply lookup_errors_bind; [|intros f2]];
    apply lookup_errors_decode_kind; intros x f;
    solve [apply lookup_errors_user_body | apply lookup_errors_yield].
Qed.

Lemma lookup_errors_next_cursor (resp : pyval) :
  raises_lookup_errors (next_cursor resp).
Proof.
  unfold next_cursor.
  apply lookup_errors_bind; [apply lookup_errors_get | intros hm].
  destruct (truthy hm); [|apply lookup_errors_ret].
  apply lookup_errors_bind; [apply lookup_errors_get | intros c].
  apply lookup_errors_ret.
Qed.

Lemma lookup_errors_page (obj_type : string) (resp : pyval) (found : Z) :
  resp <> PNone -> raises_lookup_errors (page obj_type resp found).
Proof.
  intros Hn. rewrite page_not_none by assumption.
  assert (H : raises_lookup_errors
                (found' <- decode_page obj_type resp found ;;
                 nxt <- next_cursor resp ;;
                 ret (found', nxt))).
  { apply lookup_errors_bind; [apply lookup_errors_decode_page | intros f1].
    apply lookup_errors_bind; [apply lookup_errors_next_cursor | intros nxt].
    apply lookup_errors_ret. }
  destruct (bind _ _) as [tr r]. exact H.
Qed.

Section Errors.

Context {St : Type}.
Variable make_request : St -> request -> outcome * St.
Variables search_term obj_type : string.
Variable count : Z.
Variable kwargs : pydict.

Local Abbreviation loop :=
  (search_type_loop make_request search_term obj_type count kwargs).

Lemma driver_exception_later (a b : trace) (e : exn) :
  driver_exception b e -> driver_exception (a ++ b) e.
Proof.
  intros [(r & H)|[(He & r & H)|H]].
  - left. exists r. apply in_or_app. now right.
  - right. left. split; [assumption|]. exists r. apply in_or_app. now right.
  - right. right. exact H.
Qed.

Lemma loop_exceptions (fuel : nat) :
  forall (found : Z) (cursor : pyval) (st : St) (e : exn),
    ending_of (loop fuel found cursor st) = Raised e ->
    driver_exception (trace_of (loop fuel found cursor st)) e.
Proof.
  induction fuel as [|fuel IH]; intros found cursor st e;
    destruct (Z_lt_le_dec found count) as [Hlt|Hge];
    rewrite ?(loop_done make_request), ?(loop_no_fuel make_request)
      by assumption;
    try discriminate.
  destruct (loop_turn make_request search_term obj_type count kwargs
              fuel found cursor st Hlt)
    as [e' st' Hreq | resp st' items e' Hreq Hpage
       | d st' items Hreq Hpage Hm | d st' items Hreq Hpage Hm next];
    cbn [trace_of ending_of fst snd]; intros He; try discriminate.
  - injection He as ->. left. eexists. left. reflexivity.
  - injection He as ->. destruct (pyval_none_dec resp) as [->|Hn].
    + rewrite page_none in Hpage. injection Hpage as _ <-.
      right. left. split; [reflexivity|]. eexists. left. reflexivity.
    + right. right.
      apply (lookup_errors_page obj_type resp found Hn). now rewrite Hpage.
  - apply (IH _ _ _ _) in He. fold next in He.
    exact (driver_exception_later
             (EvCall (build_request search_term obj_type kwargs cursor)
                (Ret (PDict d))
                :: EvPrint (PDict d) :: map EvYield items) _ _ He).
Qed.

(** X17. A session that ends with an exception ends with one of four:
    the exception of a transport call, passed on as it is;
    [InvalidResponseException], raised for a response that is [None];
    and [AttributeError] or [TypeError], from reading a response of an
    unexpected shape.  The driver raises nothing else. *)
Theorem session_exceptions (cursor : pyval) (fuel : nat) (st : St) (e : exn) :
  let run :=
    search_type make_request search_term obj_type count cursor kwargs fuel st in
  ending_of run = Raised e ->
  (exists r, In (EvCall r (Throw e)) (trace_of run))
  \/ (e = InvalidResponseException PNone invalid_response_msg
      /\ exists r, In (EvCall r (Ret PNone)) (trace_of run))
  \/ e = AttributeError
  \/ e = TypeError.
Proof.
  intros run He. exact (loop_exceptions fuel 0 cursor st e He).
Qed.

End Errors.

(** ** The further properties at concrete sessions *)

Lemma transport_error_propagates_witness :
  trace_of session_timeout
  = [EvCall (users_request (PInt 0)) (Ret page_a); EvPrint page_a;
     EvYield alice; EvYield bob]
    ++ EvCall (users_request (PInt 10)) (Throw (TransportError "timeout"))
         :: []
  /\ (@nil event = []
      /\ ending_of session_timeout = Raised (TransportError "timeout")).
Proof.
  split; [reflexivity|].
  apply (transport_error_propagates scripted "david teather" "user/full" 10
           [] (PInt 0) 5 [Ret page_a; Throw (TransportError "timeout")]
           [EvCall (users_request (PInt 0)) (Ret page_a); EvPrint page_a;
            EvYield alice; EvYield bob]
           [] (users_request (PInt 10))).
  reflexivity.
Defined.

Lemma no_request_once_count_reached_witness :
  trace_of session_unbounded
  = [EvCall (users_request (PInt 0)) (Ret page_a); EvPrint page_a;
     EvYield alice; EvYield bob]
    ++ EvCall (users_request (PInt 10)) (Ret page_a)
         :: [EvPrint page_a; EvYield alice; EvYield bob]
  /\ count_yielded
       [EvCall (users_request (PInt 0)) (Ret page_a); EvPrint page_a;
        EvYield alice; EvYield bob] < 3.
Proof.
  split; [reflexivity|].
  apply (no_request_once_count_reached scripted "david teather" "user/full"
           3 [] (PInt 0) 5 [Ret page_a; Ret page_a; Ret page_a]
           [EvCall (users_request (PInt 0)) (Ret page_a); EvPrint page_a;
            EvYield alice; EvYield bob]
           [EvPrint page_a; EvYield alice; EvYield bob]
           (users_request (PInt 10)) (Ret page_a)).
  reflexivity.
Defined.

Lemma request_envelope_witness :
  In (EvCall (build_request "david teather" "user/full" kwargs_more (PInt 0))
        (Ret page_b))
     (trace_of (session_with_options kwargs_more))
  /\ url (build_request "david teather" "user/full" kwargs_more (PInt 0))
     = "https://www.tiktok.com/api/search/user/full/"
  /\ headers (build_request "david teather" "user/full" kwargs_more (PInt 0))
     = PDict [("User-Agent", PStr "tests")]
  /\ session_index
       (build_request "david teather" "user/full" kwargs_more (PInt 0))
     = PInt 2.
Proof.
  assert (Hin : In (EvCall (build_request "david teather" "user/full"
                              kwargs_more (PInt 0)) (Ret page_b))
                   (trace_of (session_with_options kwargs_more)))
    by (left; reflexivity).
  split; [exact Hin|].
  exact (request_envelope scripted "david teather" "user/full" 10 kwargs_more
           (PInt 0) 5 [Ret page_b] _ _ Hin).
Defined.

Lemma other_options_are_ignored_witness :
  dict_get kwargs_more "headers" PNone = dict_get kwargs_known "headers" PNone
  /\ dict_get kwargs_more "session_index" PNone
     = dict_get kwargs_known "session_index" PNone
  /\ search_type scripted "david teather" "user/full" 10 (PInt 0) kwargs_more
       5 [Ret page_b]
     = search_type scripted "david teather" "user/full" 10 (PInt 0)
         kwargs_known 5 [Ret page_b].
Proof.
  split; [reflexivity|]. split; [reflexivity|].
  apply other_options_are_ignored; reflexivity.
Defined.

Lemma non_mapping_response_raises_witness :
  trace_of session_list_response
  = [] ++ EvCall (users_request (PInt 0)) (Ret (PList []))
            :: [EvPrint (PList [])]
  /\ PList [] <> PNone
  /\ (forall d, PList [] <> PDict d)
  /\ ([EvPrint (PList [])] = [EvPrint (PList [])]
      /\ ending_of session_list_response = Raised AttributeError).
Proof.
  split; [reflexivity|]. split; [discriminate|]. split; [discriminate|].
  apply (non_mapping_response_raises scripted "david teather" "user/full" 10
           [] (PInt 0) 5 [Ret (PList [])] [] [EvPrint (PList [])]
           (users_request (PInt 0)) (PList []));
    [reflexivity | discriminate | discriminate].
Defined.

Lemma non_iterable_list_raises_witness :
  trace_of session_null_list
  = [] ++ EvCall (users_request (PInt 0)) (Ret page_null_list)
            :: [EvPrint page_null_list]
  /\ list_field "user/full" = Some "user_list"
  /\ dict_lookup [("user_list", PNone); ("has_more", PBool true)] "user_list"
     = Some PNone
  /\ not_iterable PNone
  /\ ([EvPrint page_null_list] = [EvPrint page_null_list]
      /\ ending_of session_null_list = Raised TypeError).
Proof.
  split; [reflexivity|]. split; [reflexivity|]. split; [reflexivity|].
  split; [exact I|].
  apply (non_iterable_list_raises scripted "david teather" "user/full" 10 []
           (PInt 0) 5 [Ret page_null_list; Ret page_b] []
           [EvPrint page_null_list] (users_request (PInt 0))
           [("user_list", PNone); ("has_more", PBool true)]
           "user_list" PNone);
    [reflexivity | reflexivity | reflexivity | exact I].
Defined.

Lemma items_are_of_the_session_kind_witness :
  In bob (yielded (trace_of session_unbounded))
  /\ item_kind bob = "user/full".
Proof.
  assert (Hin : In bob (yielded (trace_of session_unbounded)))
    by (right; left; reflexivity).
  split; [exact Hin|].
  exact (items_are_of_the_session_kind scripted "david teather" "user/full" 3
           [] (PInt 0) 5 [Ret page_a; Ret page_a; Ret page_a] bob Hin).
Defined.

Lemma unknown_kind_yields_nothing_witness :
  list_field "video" = None
  /\ 0 < 5
  /\ yielded (trace_of session_unknown_kind) = []
  /\ exists o tl,
       trace_of session_unknown_kind
       = EvCall (build_request "david teather" "video" [] (PInt 0)) o :: tl.
Proof.
  split; [reflexivity|]. split; [lia|].
  apply (unknown_kind_yields_nothing scripted "david teather" "video" 5 []
           (PInt 0) 0 [Ret page_b]);
    [reflexivity | lia].
Defined.

Lemma barren_pages_never_end_witness :
  (forall (st : unit) (r : request), exists resp st',
      always page_no_list st r = (Ret resp, st')
      /\ barren "user/full" resp)
  /\ 0 < 10
  /\ ending_of (search_type (always page_no_list) "david teather" "user/full"
                  10 (PInt 0) [] 7 tt) = OutOfFuel
  /\ List.length
       (calls (trace_of (search_type (always page_no_list) "david teather"
                           "user/full" 10 (PInt 0) [] 7 tt))) = 7%nat
  /\ yielded (trace_of (search_type (always page_no_list) "david teather"
                          "user/full" 10 (PInt 0) [] 7 tt)) = [].
Proof.
  assert (Hb : forall (st : unit) (r : request), exists resp st',
             always page_no_list st r = (Ret resp, st')
             /\ barren "user/full" resp).
  { intros st r. exists page_no_list, st. split; [reflexivity|].
    intros found. exists (PInt 5). reflexivity. }
  split; [exact Hb|]. split; [lia|].
  apply (barren_pages_never_end (always page_no_list) "david teather"
           "user/full" 10 [] (PInt 0) 7 tt Hb).
  lia.
Defined.

Lemma productive_pages_end_witness :
  (forall (st : unit) (r : request), exists resp st',
      always page_a st r = (Ret resp, st') /\ productive "user/full" resp)
  /\ (Z.to_nat 5 <= 6)%nat
  /\ ending_of (search_type (always page_a) "david teather" "user/full" 5
                  (PInt 0) [] 6 tt) = Returned
  /\ 5 <= count_yielded
            (trace_of (search_type (always page_a) "david teather"
                         "user/full" 5 (PInt 0) [] 6 tt))
  /\ (List.length
        (calls (trace_of (search_type (always page_a) "david teather"
                            "user/full" 5 (PInt 0) [] 6 tt)))
      <= Z.to_nat 5)%nat.
Proof.
  assert (Hp : forall (st : unit) (r : request), exists resp st',
             always page_a st r = (Ret resp, st')
             /\ productive "user/full" resp).
  { intros st r. exists page_a, st. split; [reflexivity|].
    intros found. exists [EvPrint page_a; EvYield alice; EvYield bob].
    exists (found + 1 + 1), (PInt 10). split; [reflexivity | lia]. }
  split; [exact Hp|]. split; [cbn; lia|].
  apply (productive_pages_end (always page_a) "david teather" "user/full" 5
           [] (PInt 0) 6 tt Hp).
  cbn; lia.
Defined.

Lemma users_page_yields_its_records_witness :
  trace_of session_one_page
  = [] ++ EvCall (users_request (PInt 0)) (Ret page_b)
            :: [EvPrint page_b; EvYield alice; EvYield bob]
  /\ dict_lookup
       [("user_list", PList two_users); ("has_more", PBool false);
        ("cursor", PInt 20)] "user_list"
     = Some (PList two_users)
  /\ Forall2 good_user_record two_users [ui_alice; ui_bob]
  /\ exists tl,
       [EvPrint page_b; EvYield alice; EvYield bob]
       = EvPrint page_b :: map EvYield (map user_of [ui_alice; ui_bob]) ++ tl
       /\ (tl = [] \/ exists r' o' tl', tl = EvCall r' o' :: tl')
       /\ (has_more page_b = false ->
           tl = [] /\ ending_of session_one_page = Returned).
Proof.
  assert (Hg : Forall2 good_user_record two_users [ui_alice; ui_bob]).
  { repeat constructor; eexists; split; reflexivity. }
  split; [reflexivity|]. split; [reflexivity|]. split; [exact Hg|].
  apply (users_page_yields_its_records scripted "david teather" 10 []
           (PInt 0) 5 [Ret page_b; Ret page_b] []
           [EvPrint page_b; EvYield alice; EvYield bob]
           (users_request (PInt 0))
           [("user_list", PList two_users); ("has_more", PBool false);
            ("cursor", PInt 20)]
           two_users [ui_alice; ui_bob]);
    [reflexivity | reflexivity | exact Hg].
Defined.

Lemma users_page_stops_at_bad_record_witness :
  trace_of session_bad_record
  = [] ++ EvCall (users_request (PInt 0)) (Ret page_bad_record)
            :: [EvPrint page_bad_record; EvYield alice]
  /\ Forall2 good_user_record [user_record "sec-1" "1" "alice"] [ui_alice]
  /\ bad_user_record (PDict [("unrelated", PInt 1)])
  /\ ([EvPrint page_bad_record; EvYield alice]
      = EvPrint page_bad_record :: map EvYield (map user_of [ui_alice])
      /\ ending_of session_bad_record = Raised AttributeError).
Proof.
  assert (Hg : Forall2 good_user_record [user_record "sec-1" "1" "alice"]
                 [ui_alice]).
  { repeat constructor; eexists; split; reflexivity. }
  split; [reflexivity|]. split; [exact Hg|]. split; [exact I|].
  apply (users_page_stops_at_bad_record scripted "david teather" 10 []
           (PInt 0) 5 [Ret page_bad_record] []
           [EvPrint page_bad_record; EvYield alice]
           (users_request (PInt 0))
           [("user_list",
             PList [user_record "sec-1" "1" "alice";
                    PDict [("unrelated", PInt 1)]]);
            ("has_more", PBool false); ("cursor", PInt 0)]
           [user_record "sec-1" "1" "alice"] []
           (PDict [("unrelated", PInt 1)]) [ui_alice]);
    [reflexivity | reflexivity | exact Hg | exact I].
Defined.

Lemma keyword_page_yields_its_elements_witness :
  trace_of session_keywords
  = [] ++ EvCall (keyword_request (PInt 0)) (Ret keyword_page)
            :: [EvPrint keyword_page;
                EvYield (KeywordSuggestion (PStr "cats"));
                EvYield (KeywordSuggestion (PInt 7))]
  /\ dict_lookup
       [("suggestion_list", PList [PStr "cats"; PInt 7]);
        ("has_more", PBool false)] "suggestion_list"
     = Some (PList [PStr "cats"; PInt 7])
  /\ exists tl,
       [EvPrint keyword_page;
        EvYield (KeywordSuggestion (PStr "cats"));
        EvYield (KeywordSuggestion (PInt 7))]
       = EvPrint keyword_page
           :: map (fun k => EvYield (KeywordSuggestion k))
                [PStr "cats"; PInt 7] ++ tl
       /\ (tl = [] \/ exists r' o' tl', tl = EvCall r' o' :: tl')
       /\ (has_more keyword_page = false ->
           tl = [] /\ ending_of session_keywords = Returned).
Proof.
  split; [reflexivity|]. split; [reflexivity|].
  apply (keyword_page_yields_its_elements scripted "david teather" 8 []
           (PInt 0) 5 [Ret keyword_page] []
           [EvPrint keyword_page;
            EvYield (KeywordSuggestion (PStr "cats"));
            EvYield (KeywordSuggestion (PInt 7))]
           (keyword_request (PInt 0))
           [("suggestion_list", PList [PStr "cats"; PInt 7]);
            ("has_more", PBool false)]
           [PStr "cats"; PInt 7]);
    reflexivity.
Defined.

Lemma general_page_ignores_its_records_witness :
  trace_of session_general
  = [EvWarn advisory_msg]
    ++ EvCall (general_request (PInt 0)) (Ret video_page)
         :: [EvPrint video_page; EvYield Video; EvYield Video]
  /\ dict_lookup
       [("video_list", PList [PDict []; PDict []]); ("has_more", PBool false)]
       "video_list"
     = Some (PList [PDict []; PDict []])
  /\ exists tl,
       [EvPrint video_page; EvYield Video; EvYield Video]
       = EvPrint video_page
           :: repeat (EvYield Video) (List.length [PDict []; PDict []]) ++ tl
       /\ (tl = [] \/ exists r' o' tl', tl = EvCall r' o' :: tl')
       /\ (has_more video_page = false ->
           tl = [] /\ ending_of session_general = Returned).
Proof.
  split; [reflexivity|]. split; [reflexivity|].
  apply (general_page_ignores_its_records scripted "david teather" 20 []
           (PInt 0) 5 [Ret video_page] [EvWarn advisory_msg]
           [EvPrint video_page; EvYield Video; EvYield Video]
           (general_request (PInt 0))
           [("video_list", PList [PDict []; PDict []]);
            ("has_more", PBool false)]
           [PDict []; PDict []]);
    reflexivity.
Defined.

Lemma session_exceptions_witness :
  ending_of session_timeout = Raised (TransportError "timeout")
  /\ ((exists r,
         In (EvCall r (Throw (TransportError "timeout")))
            (trace_of session_timeout))
      \/ (TransportError "timeout"
          = InvalidResponseException PNone invalid_response_msg
          /\ exists r, In (EvCall r (Ret PNone)) (trace_of session_timeout))
      \/ TransportError "timeout" = AttributeError
      \/ TransportError "timeout" = TypeError).
Proof.
  split; [reflexivity|].
  apply (session_exceptions scripted "david teather" "user/full" 10 []
           (PInt 0) 5 [Ret page_a; Throw (TransportError "timeout")]).
  reflexivity.
Defined.

(** ** The corrected claims at concrete sessions *)



Lemma absent_list_is_an_empty_page_witness :
  trace_of session_no_list
  = [] ++ EvCall (users_request (PInt 0)) (Ret page_no_list)
            :: [EvPrint page_no_list;
                EvCall (users_request (PInt 5)) (Ret page_b); EvPrint page_b;
                EvYield alice; EvYield bob]
  /\ lacks_list "user/full" [("has_more", PBool true); ("cursor", PInt 5)]
  /\ has_more page_no_list = true
  /\ count_yielded [] < 10
  /\ (exists fuel' st',
        [EvPrint page_no_list;
         EvCall (users_request (PInt 5)) (Ret page_b); EvPrint page_b;
         EvYield alice; EvYield bob]
        = EvPrint page_no_list
            :: trace_of (search_type_loop scripted "david teather"
                           "user/full" 10 [] fuel' (count_yielded [])
                           (PInt 5) st')
        /\ ending_of session_no_list
           = ending_of (search_type_loop scripted "david teather"
                          "user/full" 10 [] fuel' (count_yielded [])
                          (PInt 5) st'))
  /\ (([EvPrint page_no_list;
        EvCall (users_request (PInt 5)) (Ret page_b); EvPrint page_b;
        EvYield alice; EvYield bob] = [EvPrint page_no_list]
       /\ ending_of session_no_list = OutOfFuel)
      \/ exists o tl,
           [EvPrint page_no_list;
            EvCall (users_request (PInt 5)) (Ret page_b); EvPrint page_b;
            EvYield alice; EvYield bob]
           = EvPrint page_no_list :: EvCall (users_request (PInt 5)) o :: tl).
Proof.
  split; [reflexivity|]. split; [reflexivity|]. split; [reflexivity|].
  refine (proj2 (absent_list_is_an_empty_page scripted "david teather"
                   "user/full" 10 [] (PInt 0) 5 [Ret page_no_list; Ret page_b]
                   [] _ (users_request (PInt 0))
                   [("has_more", PBool true); ("cursor", PInt 5)]
                   _ _) _);
    reflexivity.
Defined.
